(** * jira_handler.py: a shallow embedding of the [Jira] class

    The values that flow through [jira_handler.py] are the ones of a YAML
    or JSON document: [json] below.  A Python [dict] is an association list
    kept in insertion order; assignment [d[k] = v] replaces the value of an
    existing key in place and appends a new key at the end, as CPython does.

    The HTTP server is a function from the requests already sent and the
    new request to its response, so that responses may depend on history.
    All effects of the class are HTTP requests; they are recorded in a
    trace, and Python exceptions are an explicit error result that keeps
    the trace of the requests already sent. *)

From Stdlib Require Import String Ascii List ZArith Bool Lia.
Import ListNotations.
Open Scope string_scope.
Set Warnings "-register-all".

(** ** Values *)

Inductive json : Type :=
| JNull
| JBool (b : bool)
| JNum (z : Z)
| JStr (s : string)
| JList (l : list json)
| JDict (kvs : list (string * json)).

(** Structural equality ([==] on such values). *)
Fixpoint json_eqb (a b : json) {struct a} : bool :=
  match a, b with
  | JNull, JNull => true
  | JBool x, JBool y => Bool.eqb x y
  | JNum x, JNum y => Z.eqb x y
  | JStr x, JStr y => String.eqb x y
  | JList xs, JList ys =>
      (fix go (xs ys : list json) : bool :=
         match xs, ys with
         | [], [] => true
         | x :: xs', y :: ys' => json_eqb x y && go xs' ys'
         | _, _ => false
         end) xs ys
  | JDict xs, JDict ys =>
      (fix go (xs : list (string * json)) (ys : list (string * json)) : bool :=
         match xs, ys with
         | [], [] => true
         | (kx, x) :: xs', (ky, y) :: ys' =>
             String.eqb kx ky && json_eqb x y && go xs' ys'
         | _, _ => false
         end) xs ys
  | _, _ => false
  end.

(** Truthiness, as in [if value:]. *)
Definition truthy (v : json) : bool :=
  match v with
  | JNull => false
  | JBool b => b
  | JNum z => negb (Z.eqb z 0)
  | JStr s => negb (String.eqb s "")
  | JList l => match l with [] => false | _ => true end
  | JDict kvs => match kvs with [] => false | _ => true end
  end.

(** A Python [Optional[...]] argument: [None] or a value. *)
Definition truthy_opt (v : option json) : bool :=
  match v with None => false | Some j => truthy j end.

(** *** Dictionaries as association lists *)

Fixpoint dget {A} (kvs : list (string * A)) (k : string) : option A :=
  match kvs with
  | [] => None
  | (k', v) :: rest => if String.eqb k' k then Some v else dget rest k
  end.

Definition dhas {A} (kvs : list (string * A)) (k : string) : bool :=
  match dget kvs k with Some _ => true | None => false end.

(** [d[k] = v]. *)
Fixpoint dset {A} (kvs : list (string * A)) (k : string) (v : A)
  : list (string * A) :=
  match kvs with
  | [] => [(k, v)]
  | (k', v') :: rest =>
      if String.eqb k' k then (k', v) :: rest else (k', v') :: dset rest k v
  end.

Definition keys {A} (kvs : list (string * A)) : list string := map fst kvs.

Definition mem (x : string) (l : list string) : bool :=
  existsb (String.eqb x) l.

(** *** Decimal rendering of integers, for f-strings *)

Fixpoint digits_N (fuel : nat) (n : N) (acc : string) : string :=
  match fuel with
  | O => acc
  | S fuel' =>
      let d := N.modulo n 10 in
      let acc' := String (ascii_of_N (48 + d)) acc in
      if N.ltb n 10 then acc' else digits_N fuel' (N.div n 10) acc'
  end.

Definition N_to_dec (n : N) : string := digits_N (S (N.size_nat n)) n "".

Definition Z_to_dec (z : Z) : string :=
  match z with
  | Z0 => "0"
  | Zpos p => N_to_dec (Npos p)
  | Zneg p => "-" ++ N_to_dec (Npos p)
  end.

(** [repr(value)] of a scalar, as it appears inside a rendered container. *)
Definition py_repr (v : json) : string :=
  match v with
  | JStr s => "'" ++ s ++ "'"
  | JNull => "None"
  | JBool b => if b then "True" else "False"
  | JNum z => Z_to_dec z
  | JList _ => "[...]"
  | JDict _ => "{...}"
  end.

(** [str(value)], the rendering used inside the URLs built by f-strings
    (containers are rendered one level deep). *)
Definition py_str (v : json) : string :=
  match v with
  | JStr s => s
  | JList l => "[" ++ String.concat ", " (map py_repr l) ++ "]"
  | JDict kvs =>
      "{" ++ String.concat ", " (map (fun kv => "'" ++ fst kv ++ "': " ++ py_repr (snd kv)) kvs) ++ "}"
  | _ => py_repr v
  end.

(** [str.lower()] on ASCII. *)
Definition lower_ascii (c : ascii) : ascii :=
  let n := nat_of_ascii c in
  if (65 <=? n)%nat && (n <=? 90)%nat then ascii_of_nat (n + 32) else c.

Fixpoint lower (s : string) : string :=
  match s with
  | EmptyString => EmptyString
  | String c rest => String (lower_ascii c) (lower rest)
  end.

Fixpoint chars (s : string) : list json :=
  match s with
  | EmptyString => []
  | String c rest => JStr (String c EmptyString) :: chars rest
  end.

(** ** Exceptions, requests and the trace *)

Inductive exn : Type :=
| KeyError (key : string)
| ValueError (msg : string)
| TypeError (msg : string)
| AttributeError (msg : string)
| NameError (name : string)
| RuntimeError (msg : string)
| HTTPError (status : Z).

Inductive result (A : Type) : Type :=
| Ok (a : A)
| Err (e : exn).
Arguments Ok {A} a.
Arguments Err {A} e.

Record request : Type := mkRequest {
  req_method : string;          (* "post", "put" or "get", lower case *)
  req_url : string;
  req_data : option json        (* the [json=] body, or the [params=] of a GET *)
}.

(** A response of the [requests] library: its status code, its text, and
    what [response.json()] gives on that text ([None] when the text is not
    valid JSON, where [response.json()] raises [ValueError]). *)
Record http_response : Type := mkResponse {
  resp_status : Z;
  resp_text : string;
  resp_json : option json
}.

(** What [send_request] returns: parsed JSON, or the [requests.Response]
    object itself. *)
Inductive reply : Type :=
| RJson (j : json)
| RRaw (r : http_response).

(** The trace.  [ERequest] is a request sent to the tracker.  [ECreate] is
    a ghost event marking each invocation of [create_new_jira_issue] with
    the issue specification it received; it sends nothing. *)
Inductive event : Type :=
| ERequest (r : request)
| ECreate (issue : json).

Definition trace := list event.

(** ** The state and error monad *)

Definition M (A : Type) : Type := trace -> result A * trace.

Definition ret {A} (a : A) : M A := fun t => (Ok a, t).
Definition raise {A} (e : exn) : M A := fun t => (Err e, t).
Definition bind {A B} (m : M A) (k : A -> M B) : M B :=
  fun t => match m t with
           | (Ok a, t') => k a t'
           | (Err e, t') => (Err e, t')
           end.
Definition lift {A} (r : result A) : M A :=
  fun t => (r, t).
Definition emit (ev : event) : M unit := fun t => (Ok tt, (t ++ [ev])%list).

Notation "x <- m ;; k" := (bind m (fun x => k))
  (at level 61, m at next level, right associativity).
Notation "m ;;; k" := (bind m (fun _ => k))
  (at level 61, right associativity).

Definition rbind {A B} (r : result A) (k : A -> result B) : result B :=
  match r with Ok a => k a | Err e => Err e end.

Fixpoint foldM {A B} (f : A -> B -> M A) (acc : A) (l : list B) : M A :=
  match l with
  | [] => ret acc
  | x :: rest => acc' <- f acc x ;; foldM f acc' rest
  end.

Fixpoint map_result {A B} (f : A -> result B) (l : list A) : result (list B) :=
  match l with
  | [] => Ok []
  | x :: rest =>
      rbind (f x) (fun y => rbind (map_result f rest) (fun ys => Ok (y :: ys)))
  end.

(** ** Python operations on values *)

(** [value[k]] with a string index. *)
Definition subscript (v : json) (k : string) : result json :=
  match v with
  | JDict kvs => match dget kvs k with Some x => Ok x | None => Err (KeyError k) end
  | JStr _ | JList _ => Err (TypeError "indices must be integers")
  | _ => Err (TypeError "object is not subscriptable")
  end.

(** [value.get(k, default)]. *)
Definition py_get (v : json) (k : string) (default : json) : result json :=
  match v with
  | JDict kvs => match dget kvs k with Some x => Ok x | None => Ok default end
  | _ => Err (AttributeError "get")
  end.

(** [k in value] for a dict. *)
Definition py_in (k : string) (v : json) : bool :=
  match v with JDict kvs => dhas kvs k | _ => false end.

(** The items of [for x in value]: a dict iterates over its keys, a string
    over its characters. *)
Definition py_iter (v : json) : result (list json) :=
  match v with
  | JList l => Ok l
  | JDict kvs => Ok (map (fun kv => JStr (fst kv)) kvs)
  | JStr s => Ok (chars s)
  | _ => Err (TypeError "object is not iterable")
  end.

(** The same operations on what [send_request] returned.  A
    [requests.Response] is not subscriptable and has no [get]; iterating
    over it yields the chunks of its body, none for the empty body that is
    the only case where [send_request] returns it. *)
Definition reply_subscript (r : reply) (k : string) : result json :=
  match r with
  | RJson j => subscript j k
  | RRaw _ => Err (TypeError "'Response' object is not subscriptable")
  end.

Definition reply_get (r : reply) (k : string) (default : json) : result json :=
  match r with
  | RJson j => py_get j k default
  | RRaw _ => Err (AttributeError "get")
  end.

Definition reply_iter (r : reply) : result (list json) :=
  match r with
  | RJson j => py_iter j
  | RRaw _ => Ok []
  end.

(** A value used as a key of the output dict.  The configuration names
    tracker fields by strings; any other value is refused here. *)
Definition as_key (v : json) : result string :=
  match v with
  | JStr s => Ok s
  | _ => Err (TypeError "unhashable or non-string field id")
  end.

Definition opt_json (o : option json) : json :=
  match o with Some j => j | None => JNull end.

(** ** The [Jira] object

    The attributes set by [__init__]; [jira_special_fields.get(k, default)]
    gives the four configuration entries, the three field lists being lists
    of field names. *)
Record jira : Type := mkJira {
  jira_url : string;
  jira_api_base_url : string;
  name_format_fields : list string;
  key_format_fields : list string;
  custom_field_mapping : list (string * json);
  post_creation_update_fields : list string
}.

Definition startswith_slash (s : string) : bool :=
  match s with String "/"%char _ => true | _ => false end.

(** [__init__], without the credential check. *)
Definition make_jira (url api_base : string) (special : list (string * json)) : jira :=
  let names (k : string) :=
    match dget special k with
    | Some (JList l) => flat_map (fun v => match v with JStr s => [s] | _ => [] end) l
    | _ => []
    end in
  {| jira_url := url;
     jira_api_base_url :=
       if startswith_slash api_base then url ++ api_base else url ++ "/" ++ api_base;
     name_format_fields := names "name_format_fields";
     key_format_fields := names "key_format_fields";
     custom_field_mapping :=
       match dget special "custom_field_mapping" with Some (JDict m) => m | _ => [] end;
     post_creation_update_fields := names "post_creation_update_fields" |}.

Section JiraClient.

Variable self : jira.
Variable server : trace -> request -> http_response.

(** One HTTP exchange: the request is appended to the trace. *)
Definition http (r : request) : M http_response :=
  fun t => (Ok (server t r), (t ++ [ERequest r])%list).

Definition opt_str (o : option string) : string :=
  match o with Some s => s | None => "None" end.

(** The part of [send_request] after the response arrived. *)
Definition handle_response (resp : http_response) : M reply :=
  (* response.raise_for_status() *)
  if (400 <=? resp_status resp)%Z && (resp_status resp <? 600)%Z then
    raise (HTTPError (resp_status resp))
  else if negb (String.eqb (resp_text resp) "") then
    match resp_json resp with
    | Some j => ret (RJson j)
    | None => ret (RJson (JDict [("response_text", JStr (resp_text resp))]))
    end
  else ret (RRaw resp).

(** [_validate_credentials]: a plain [requests.get] of [<api base>/myself]
    (no [params], so no data), outside [send_request]: the status is
    compared with 200 and nothing else of the response is looked at. *)
Definition validate_credentials : M unit :=
  response <- http (mkRequest "get" (jira_api_base_url self ++ "/myself") None) ;;
  if negb (Z.eqb (resp_status response) 200) then
    raise (RuntimeError "Failed to validate Jira URL or token. Check log for details.")
  else ret tt.

(** [send_request]. *)
Definition send_request (api_type : option string) (custom_url : option string)
    (issue_key : option json) (data : option json) (method : string) : M reply :=
  let m := lower method in
  if negb (mem m ["post"; "put"; "get"]) then
    raise (ValueError "Invalid HTTP method. Allowed methods are post, put, get.")
  else
    let url :=
      match custom_url with
      | Some u => if negb (String.eqb u "") then u
                  else if mem m ["put"; "get"] && truthy_opt issue_key
                  then jira_api_base_url self ++ "/" ++ opt_str api_type ++ "/" ++ py_str (opt_json issue_key)
                  else jira_api_base_url self ++ "/" ++ opt_str api_type
      | None => if mem m ["put"; "get"] && truthy_opt issue_key
                then jira_api_base_url self ++ "/" ++ opt_str api_type ++ "/" ++ py_str (opt_json issue_key)
                else jira_api_base_url self ++ "/" ++ opt_str api_type
      end in
    resp <- http (mkRequest m url data) ;;
    handle_response resp.

(** [get_project_id_by_key]: the loop over the projects. *)
Fixpoint find_project (project_key : string) (projects : list json) : result json :=
  match projects with
  | [] => Err (RuntimeError ("Project key " ++ project_key ++ " not found."))
  | project :: rest =>
      rbind (subscript project "key") (fun k =>
        if json_eqb k (JStr project_key) then subscript project "id"
        else find_project project_key rest)
  end.

Definition get_project_id_by_key (project_key : string) : M json :=
  response <- send_request (Some "project") None None None "get" ;;
  projects <- lift (reply_iter response) ;;
  lift (find_project project_key projects).

Definition get_board_id_by_project_key (project_key : string) : M json :=
  project_id <- get_project_id_by_key project_key ;;
  let url := jira_url self ++ "/rest/agile/1.0/board?projectKeyOrId=" ++ py_str project_id in
  response <- send_request None (Some url) None None "get" ;;
  values <- lift (reply_get response "values" (JList [])) ;;
  boards <- lift (py_iter values) ;;
  match boards with
  | board :: _ => lift (subscript board "id")
  | [] => raise (RuntimeError ("No boards found for project key " ++ project_key ++ "."))
  end.

(** [get_sprint_id]: the loop over the sprints of the board. *)
Fixpoint find_sprint (sprint_name : json) (sprints : list json) : result (option json) :=
  match sprints with
  | [] => Ok None
  | sprint :: rest =>
      rbind (subscript sprint "name") (fun n =>
        if json_eqb n sprint_name then rbind (subscript sprint "id") (fun i => Ok (Some i))
        else find_sprint sprint_name rest)
  end.

Definition board_sprints_url (board_id : json) : string :=
  jira_url self ++ "/rest/agile/1.0/board/" ++ py_str board_id ++ "/sprint".

Definition get_sprint_id (board_id : json) (sprint_name : json) : M (option json) :=
  response <- send_request None (Some (board_sprints_url board_id)) None None "get" ;;
  values <- lift (reply_get response "values" (JList [])) ;;
  sprints <- lift (py_iter values) ;;
  lift (find_sprint sprint_name sprints).

Definition link_data (issue_key issue_parent_key link_type : json) : json :=
  JDict [("type", JDict [("name", link_type)]);
         ("inwardIssue", JDict [("key", issue_key)]);
         ("outwardIssue", JDict [("key", issue_parent_key)])].

Definition link_jira_issues (issue_key issue_parent_key link_type : json) : M reply :=
  send_request (Some "issueLink") None None
    (Some (link_data issue_key issue_parent_key link_type)) "post".

(** [transform_field_value], the helper of [_build_issue_data]:
    [[{key: val} for key, val in field_value]] iterates over the keys of the
    dict and unpacks each key, a string, into two characters. *)
Definition unpack_pair (k : string) : result json :=
  match k with
  | String a (String b EmptyString) =>
      Ok (JDict [(String a EmptyString, JStr (String b EmptyString))])
  | _ => Err (ValueError "wrong number of values to unpack (expected 2)")
  end.

Definition transform_field_value (field_value : json) (key_type : string) : result json :=
  match field_value with
  | JDict kvs => rbind (map_result unpack_pair (keys kvs)) (fun l => Ok (JList l))
  | _ => Ok (JDict [(key_type, field_value)])
  end.

(** [self.custom_field_mapping[name].keys()] for the two nested tables. *)
Definition nested_mapping (name : string) : result (list (string * json)) :=
  match dget (custom_field_mapping self) name with
  | None => Err (KeyError name)
  | Some (JDict kvs) => Ok kvs
  | Some _ => Err (AttributeError "keys")
  end.

(** One iteration of the loop of [_build_issue_data] over [fields.items()];
    [acc] is [issue_data['fields']]. *)
Definition build_field (jira_project : string) (exclude_fields : list string)
    (acc : list (string * json)) (field : string * json) : M (list (string * json)) :=
  let (field_name, field_value) := field in
  if String.eqb field_name "issues" then ret acc
  else if mem field_name exclude_fields then ret acc
  else if String.eqb field_name "issuelinks" then ret acc
  else if mem field_name (key_format_fields self) then
    v <- lift (transform_field_value field_value "key") ;;
    ret (dset acc field_name v)
  else if mem field_name (name_format_fields self) then
    v <- lift (transform_field_value field_value "name") ;;
    ret (dset acc field_name v)
  else match dget (custom_field_mapping self) field_name with
  | Some custom_field_name =>
      if String.eqb field_name "sprint" then
        project_board_id <- get_board_id_by_project_key jira_project ;;
        sprint_id <- get_sprint_id project_board_id field_value ;;
        k <- lift (as_key custom_field_name) ;;
        ret (dset acc k (opt_json sprint_id))
      else
        k <- lift (as_key custom_field_name) ;;
        ret (dset acc k field_value)
  | None =>
      key_fields <- lift (nested_mapping "key_format_fields") ;;
      match dget key_fields field_name with
      | Some custom_field_name =>
          v <- lift (transform_field_value field_value "key") ;;
          k <- lift (as_key custom_field_name) ;;
          ret (dset acc k v)
      | None =>
          name_fields <- lift (nested_mapping "name_format_fields") ;;
          match dget name_fields field_name with
          | Some custom_field_name =>
              v <- lift (transform_field_value field_value "name") ;;
              k <- lift (as_key custom_field_name) ;;
              ret (dset acc k v)
          | None => ret (dset acc field_name field_value)
          end
      end
  end.

(** [_build_issue_data]; the result is [issue_data['fields']]. *)
Definition build_issue_data (jira_project : string) (fields : json)
    (exclude_fields : list string) : M (list (string * json)) :=
  match fields with
  | JDict kvs => foldM (build_field jira_project exclude_fields) [] kvs
  | _ => raise (AttributeError "items")
  end.

(** The loop over [jira_issue['issuelinks']] in [create_new_jira_issue]: it
    only rebinds [link_type] and [issue_parent_key]; the result is their
    values after the loop ([None] when the loop body never ran and the two
    names are still unbound). *)
Fixpoint issuelinks_loop (last : option (json * json)) (links : list json)
  : result (option (json * json)) :=
  match links with
  | [] => Ok last
  | link :: rest =>
      rbind (rbind (subscript link "type") (fun t => py_get t "name" (JStr "Related")))
        (fun link_type =>
      rbind (rbind (subscript link "outwardIssue") (fun o => py_get o "key" (JStr "")))
        (fun issue_parent_key =>
      issuelinks_loop (Some (link_type, issue_parent_key)) rest))
  end.

Definition is_subtask (jira_issue : json) : bool :=
  match jira_issue with
  | JDict kvs => match dget kvs "issuetype" with
                 | Some t => json_eqb t (JStr "Sub-task")
                 | None => false
                 end
  | _ => false
  end.

Definition dict_keys (v : json) : list string :=
  match v with JDict kvs => keys kvs | _ => [] end.

(** The body of the creation request: [initial_issue_data['fields']] once
    the project and the epic link or parent are set. *)
Definition initial_fields (jira_project : string) (jira_issue : json)
    (epic_key parent_key : option json) (built : list (string * json))
  : result (list (string * json)) :=
  let f1 := dset built "project" (JDict [("key", JStr jira_project)]) in
  if truthy_opt epic_key && negb (is_subtask jira_issue) then
    rbind (rbind (subscript (JDict (custom_field_mapping self)) "epicLink") as_key)
      (fun k => Ok (dset f1 k (opt_json epic_key)))
  else if is_subtask jira_issue && truthy_opt parent_key then
    Ok (dset f1 "parent" (JDict [("key", opt_json parent_key)]))
  else Ok f1.

(** [create_new_jira_issue]. *)
Definition create_new_jira_issue (jira_project : string) (jira_issue : json)
    (epic_key parent_key : option json) : M reply :=
  emit (ECreate jira_issue) ;;;
  built <- build_issue_data jira_project jira_issue (post_creation_update_fields self) ;;
  initial <- lift (initial_fields jira_project jira_issue epic_key parent_key built) ;;
  response_data <- send_request (Some "issue") None None
                     (Some (JDict [("fields", JDict initial)])) "post" ;;
  issue_key <- lift (reply_subscript response_data "key") ;;
  if negb (truthy issue_key) then
    raise (ValueError "Failed to retrieve issue key from the Jira response")
  else
  let fields_set_during_issue_creation :=
    filter (fun k => negb (mem k (post_creation_update_fields self))) (dict_keys jira_issue) in
  update_data <- build_issue_data jira_project jira_issue fields_set_during_issue_creation ;;
  (match update_data with
   | [] => ret tt
   | _ => send_request (Some "issue") None (Some issue_key)
                  (Some (JDict [("fields", JDict update_data)])) "put" ;;; ret tt
   end) ;;;
  (if mem "issuelinks" (dict_keys jira_issue) then
     links <- lift (rbind (subscript jira_issue "issuelinks") py_iter) ;;
     last <- lift (issuelinks_loop None links) ;;
     match last with
     | None => raise (NameError "link_type")
     | Some (link_type, issue_parent_key) =>
         link_jira_issues issue_key issue_parent_key link_type ;;; ret tt
     end
   else ret tt) ;;;
  ret response_data.

(** The part of the loop body of [create_list_of_jira_issues] before the
    recursion: log the issue (reading its type and summary), create it, and
    link it to its parent issue unless it is a sub-task.  The result is the
    new issue's key. *)
Definition create_list_item (jira_project : string) (issue : json)
    (epic_key issue_parent_key : option json) : M json :=
  lift (subscript issue "issuetype") ;;;
  lift (subscript issue "summary") ;;;
  issue_create_response <- create_new_jira_issue jira_project issue epic_key issue_parent_key ;;
  issue_key <- lift (reply_subscript issue_create_response "key") ;;
  (if truthy_opt issue_parent_key then
     issuetype <- lift (subscript issue "issuetype") ;;
     if negb (json_eqb issuetype (JStr "Sub-task")) then
       link_type <- lift (py_get issue "linkType" (JStr "Related")) ;;
       link_jira_issues issue_key (opt_json issue_parent_key) link_type ;;; ret tt
     else ret tt
   else ret tt) ;;;
  ret issue_key.

(** [create_list_of_jira_issues].  The recursive call is on the value of
    the ['issues'] key of an item of the list, a subterm of [jira_issues].
    Iterating over a dict or a string yields strings, on which
    [issue["issuetype"]] raises [TypeError] before anything is sent. *)
Fixpoint create_list_of_jira_issues (jira_project : string) (jira_issues : json)
    (epic_key issue_parent_key : option json) {struct jira_issues} : M unit :=
  match jira_issues with
  | JList items =>
      (fix loop (items : list json) : M unit :=
         match items with
         | [] => ret tt
         | issue :: rest =>
             issue_key <- create_list_item jira_project issue epic_key issue_parent_key ;;
             match issue with
             | JDict kvs =>
                 (fix children (kvs : list (string * json)) : M unit :=
                    match kvs with
                    | [] => ret tt
                    | (k, v) :: more =>
                        if String.eqb k "issues"
                        then create_list_of_jira_issues jira_project v epic_key (Some issue_key)
                        else children more
                    end) kvs
             | _ => ret tt
             end ;;;
             loop rest
         end) items
  | JDict [] | JStr EmptyString => ret tt
  | JDict _ | JStr _ => raise (TypeError "string indices must be integers")
  | _ => raise (TypeError "object is not iterable")
  end.

(** [create_epics_and_issues]; the [except KeyError: raise] clause re-raises
    the same exception. *)
Fixpoint create_epics_and_issues (jira_project : string) (epics : list json) : M unit :=
  match epics with
  | [] => ret tt
  | epic :: rest =>
      lift (subscript epic "epicName") ;;;
      epic_create_response <- create_new_jira_issue jira_project epic None None ;;
      epic_key <- lift (reply_subscript epic_create_response "key") ;;
      (if py_in "issues" epic then
         issues <- lift (subscript epic "issues") ;;
         create_list_of_jira_issues jira_project issues (Some epic_key) None
       else ret tt) ;;;
      create_epics_and_issues jira_project rest
  end.

End JiraClient.

(** [Jira(jira_url, jira_api_base_url, jira_token, jira_special_fields)]:
    the attributes of [make_jira], then [_validate_credentials].  The token
    only goes into the request headers, which the trace does not record. *)
Definition jira_init (server : trace -> request -> http_response)
    (url api_base token : string) (special : list (string * json)) : M jira :=
  let j := make_jira url api_base special in
  validate_credentials j server ;;;
  ret j.

(** ** A concrete configuration and tracker, for the witnesses *)

Definition cfg0 : jira :=
  make_jira "https://jira.example" "/rest/api/2"
    [("name_format_fields", JList [JStr "priority"; JStr "issuetype"]);
     ("key_format_fields", JList [JStr "components"]);
     ("custom_field_mapping",
        JDict [("epicLink", JStr "customfield_10008");
               ("epicName", JStr "customfield_10009");
               ("sprint", JStr "customfield_10007");
               ("key_format_fields", JDict [("team", JStr "customfield_20000")]);
               ("name_format_fields", JDict [("severity", JStr "customfield_20001")])]);
     ("post_creation_update_fields", JList [JStr "labels"])].

Definition count_creations (t : trace) : nat :=
  length (filter (fun ev => match ev with
                            | ERequest r => String.eqb (req_method r) "post" &&
                                            String.eqb (req_url r) "https://jira.example/rest/api/2/issue"
                            | _ => false end) t).

(** Issues get keys P-1, P-2, ... in creation order; updates and links
    answer with an empty body. *)
Definition server0 (t : trace) (r : request) : http_response :=
  if String.eqb (req_method r) "post" && String.eqb (req_url r) "https://jira.example/rest/api/2/issue"
  then mkResponse 201 "{...}" (Some (JDict [("id", JStr "1000"); ("key", JStr ("P-" ++ Z_to_dec (Z.of_nat (S (count_creations t)))))]))
  else if String.eqb (req_url r) "https://jira.example/rest/api/2/project"
  then mkResponse 200 "[...]" (Some (JList [JDict [("id", JStr "10"); ("key", JStr "PROJ")]]))
  else if String.eqb (req_url r) "https://jira.example/rest/agile/1.0/board?projectKeyOrId=10"
  then mkResponse 200 "{...}" (Some (JDict [("values", JList [JDict [("id", JNum 7)]])]))
  else if String.eqb (req_url r) "https://jira.example/rest/agile/1.0/board/7/sprint"
  then mkResponse 200 "{...}" (Some (JDict [("values", JList [JDict [("id", JNum 10); ("name", JStr "Sprint 1")]])]))
  else if String.eqb (req_method r) "get"
  then mkResponse 404 "" None
  else mkResponse 204 "" None.

Definition issue_url : string := "https://jira.example/rest/api/2/issue".

Definition link_requests (t : trace) : list json :=
  flat_map (fun ev => match ev with
                      | ERequest r => if String.eqb (req_url r) "https://jira.example/rest/api/2/issueLink"
                                      then [opt_json (req_data r)] else []
                      | _ => [] end) t.

Definition issuelink (link_type outward : string) : json :=
  JDict [("type", JDict [("name", JStr link_type)]);
         ("outwardIssue", JDict [("key", JStr outward)])].

Definition linked_task : json :=
  JDict [("summary", JStr "T"); ("issuetype", JStr "Task");
         ("issuelinks", JList [issuelink "Blocks" "A-1"; issuelink "Relates" "A-2"])].

(** The tracker of [server0], except that the creation request is answered
    with a body that has no ["key"], or an empty one. *)
Definition server_nokey (key : option string) (t : trace) (r : request) : http_response :=
  if String.eqb (req_method r) "post" && String.eqb (req_url r) issue_url
  then mkResponse 201 "{...}"
         (Some (JDict (("id", JStr "1000") :: match key with Some k => [("key", JStr k)] | None => [] end)))
  else server0 t r.

Definition epic_e1 : json :=
  JDict [("epicName", JStr "E1"); ("summary", JStr "E1"); ("issuetype", JStr "Epic");
         ("issues", JList [JDict [("summary", JStr "T1"); ("issuetype", JStr "Task")]])].

(** A configuration listing one field in both format lists. *)
Definition cfg_both : jira :=
  make_jira "https://jira.example" "rest/api/2"
    [("name_format_fields", JList [JStr "x"]);
     ("key_format_fields", JList [JStr "x"]);
     ("custom_field_mapping", JDict [("key_format_fields", JDict []); ("name_format_fields", JDict [])])].

(** A configuration whose custom field mapping targets the tracker field
    named ["issues"]. *)
Definition cfg_issues_target : jira :=
  make_jira "https://jira.example" "rest/api/2"
    [("custom_field_mapping", JDict [("team", JStr "issues")])].

(** An issue with a post-creation field. *)
Definition labelled_task : list (string * json) :=
  [("summary", JStr "T"); ("issuetype", JStr "Task"); ("labels", JList [JStr "a"])].

(** Two epics; the first holds a task with a nested sub-task, then a
    second task. *)
Definition epic_tree : list json :=
  [JDict [("epicName", JStr "E1"); ("summary", JStr "E1"); ("issuetype", JStr "Epic");
          ("issues",
             JList [JDict [("summary", JStr "T1"); ("issuetype", JStr "Task");
                           ("issues", JList [JDict [("summary", JStr "S1");
                                                    ("issuetype", JStr "Sub-task")]])];
                    JDict [("summary", JStr "T2"); ("issuetype", JStr "Task")]])];
   JDict [("epicName", JStr "E2"); ("summary", JStr "E2"); ("issuetype", JStr "Epic")]].

(** A tracker whose GET replies are the empty object [{}]. *)
Definition server_novalues (t : trace) (r : request) : http_response :=
  if String.eqb (req_method r) "get" then mkResponse 200 "{}" (Some (JDict []))
  else server0 t r.

(** A tracker that answers every request with a body that is not JSON. *)
Definition server_text (t : trace) (r : request) : http_response :=
  mkResponse 200 "OK" None.

(** A configuration without post-creation update fields. *)
Definition cfg_nopost : jira :=
  make_jira "https://jira.example" "/rest/api/2"
    [("custom_field_mapping",
        JDict [("epicLink", JStr "customfield_10008");
               ("key_format_fields", JDict []); ("name_format_fields", JDict [])])].

(** ** Views used to state the properties *)

(** The key of [issue_data['fields']] that one iteration of the loop of
    [_build_issue_data] assigns, read off its branches ([None]: the field is
    skipped, or the branch cannot complete). *)
Definition field_target (self : jira) (exclude_fields : list string)
    (field : string * json) : option string :=
  let (field_name, _) := field in
  let target (c : json) := match as_key c with Ok s => Some s | Err _ => None end in
  if String.eqb field_name "issues" then None
  else if mem field_name exclude_fields then None
  else if String.eqb field_name "issuelinks" then None
  else if mem field_name (key_format_fields self) then Some field_name
  else if mem field_name (name_format_fields self) then Some field_name
  else match dget (custom_field_mapping self) field_name with
  | Some c => target c
  | None =>
      match nested_mapping self "key_format_fields" with
      | Err _ => None
      | Ok key_fields =>
          match dget key_fields field_name with
          | Some c => target c
          | None =>
              match nested_mapping self "name_format_fields" with
              | Err _ => None
              | Ok name_fields =>
                  match dget name_fields field_name with
                  | Some c => target c
                  | None => Some field_name
                  end
              end
          end
      end
  end.

Definition str_values (kvs : list (string * json)) : list string :=
  flat_map (fun kv => match snd kv with JStr s => [s] | _ => [] end) kvs.

(** Every tracker field name the custom field mapping can produce: the
    string values of the mapping and of its two nested tables. *)
Definition cfm_names (self : jira) : list string :=
  str_values (custom_field_mapping self) ++
  match nested_mapping self "key_format_fields" with Ok m => str_values m | Err _ => [] end ++
  match nested_mapping self "name_format_fields" with Ok m => str_values m | Err _ => [] end.

(** The update request of [create_new_jira_issue], sent only when there
    are post-creation fields to set. *)
Definition put_request (self : jira) (key : json) (m2 : list (string * json)) : list event :=
  match m2 with
  | [] => []
  | _ => [ERequest (mkRequest "put" (jira_api_base_url self ++ "/issue/" ++ py_str key)
                     (Some (JDict [("fields", JDict m2)])))]
  end.

(** The issue specifications received by [create_new_jira_issue], in order. *)
Definition creates (t : trace) : list json :=
  flat_map (fun ev => match ev with ECreate i => [i] | ERequest _ => [] end) t.

Definition is_get (ev : event) : Prop :=
  match ev with ERequest r => req_method r = "get" | ECreate _ => False end.

(** Depth-first order of a nested issue list, following the spec: each
    issue of the list in input order, each followed by the issues nested
    under its ['issues'] key. *)
Fixpoint issue_tree_order (jira_issues : json) : list json :=
  match jira_issues with
  | JList items =>
      (fix go (items : list json) : list json :=
         match items with
         | [] => []
         | issue :: rest =>
             issue ::
             (match issue with
              | JDict kvs =>
                  (fix children (kvs : list (string * json)) : list json :=
                     match kvs with
                     | [] => []
                     | (k, v) :: more =>
                         if String.eqb k "issues" then issue_tree_order v else children more
                     end) kvs
              | _ => []
              end) ++ go rest
         end) items
  | _ => []
  end.

Definition nested_issues_order (issue : json) : list json :=
  match issue with
  | JDict kvs => match dget kvs "issues" with Some v => issue_tree_order v | None => [] end
  | _ => []
  end.

(** Epics in input order, each followed by its issues in depth-first order. *)
Definition epics_order (epics : list json) : list json :=
  flat_map (fun epic => epic :: nested_issues_order epic) epics.

(** A run of [m] from [t] creates the issues of a prefix of [order], in
    that order; all of [order] when it succeeds. *)
Definition walk_ok {A} (m : M A) (order : list json) : Prop :=
  forall t, exists q rest,
    order = (q ++ rest)%list /\
    creates (snd (m t)) = (creates t ++ q)%list /\
    (forall a, fst (m t) = Ok a -> rest = []).

(** An event that is not an update (PUT) request. *)
Definition not_put (ev : event) : Prop :=
  match ev with ERequest r => req_method r <> "put" | ECreate _ => True end.

(** [m] sends no update request. *)
Definition no_put {A} (m : M A) : Prop :=
  forall t, exists evs, snd (m t) = (t ++ evs)%list /\ Forall not_put evs.

(** [m] leaves the trace alone: it sends nothing. *)
Definition sends_nothing {A} (m : M A) : Prop :=
  forall t, snd (m t) = t.

Fixpoint json_size (v : json) : nat :=
  match v with
  | JList l => S (list_sum (map json_size l))
  | JDict kvs => S (list_sum (map (fun kv => json_size (snd kv)) kvs))
  | _ => 1
  end.

Definition board7_sprints : list (list (string * json)) :=
  [[("id", JNum 10); ("name", JStr "Sprint 1")]].

(** [m] only sends GET requests. *)
Definition gets_only {A} (m : M A) : Prop :=
  forall t, exists g, snd (m t) = (t ++ g)%list /\ Forall is_get g.

(** [m] only sends requests (it does not create issues). *)
Definition requests_only {A} (m : M A) : Prop :=
  forall t, exists rs, snd (m t) = (t ++ map ERequest rs)%list.

Definition structural_input : list (string * json) :=
  [("summary", JStr "S"); ("issuetype", JStr "Task"); ("issues", JList []);
   ("issuelinks", JList [issuelink "Blocks" "A-1"])].

(** * Properties *)

(** ** The transport adapter *)

Lemma send_request_shape self server api custom key data method :
  mem (lower method) ["post"; "put"; "get"] = true ->
  exists url, forall t,
    send_request self server api custom key data method t =
    bind (http server (mkRequest (lower method) url data)) handle_response t.
Proof.
  intros Hm. unfold send_request. rewrite Hm. cbv zeta.
  eexists. intros t. reflexivity.
Qed.

Lemma send_request_custom self server api u key data method t :
  mem (lower method) ["post"; "put"; "get"] = true ->
  String.eqb u "" = false ->
  send_request self server api (Some u) key data method t =
  bind (http server (mkRequest (lower method) u data)) handle_response t.
Proof.
  intros Hm Hu. unfold send_request. rewrite Hm. cbv zeta. rewrite Hu. reflexivity.
Qed.

Lemma handle_response_trace resp t : snd (handle_response resp t) = t.
Proof.
  unfold handle_response.
  destruct (_ && _); [reflexivity|].
  destruct (negb _); [destruct (resp_json resp)|]; reflexivity.
Qed.

Lemma handle_response_2xx_empty resp t :
  (200 <= resp_status resp < 300)%Z -> resp_text resp = "" ->
  fst (handle_response resp t) = Ok (RRaw resp).
Proof.
  intros [H1 H2] Ht. unfold handle_response. rewrite Ht.
  destruct (Z.leb_spec 400 (resp_status resp)); [lia|]. reflexivity.
Qed.

(** C9: a request answered with a 2xx status and an empty body is not
    parsed as JSON and does not fail, but [send_request] returns the
    [requests.Response] object itself ([RRaw]), not an empty or absent
    parsed result (nor the dict its docstring and annotation promise). *)
Theorem send_request_empty_2xx_returns_response self server api custom key data method t
    (Hm : mem (lower method) ["post"; "put"; "get"] = true) :
  exists r,
    snd (send_request self server api custom key data method t) = (t ++ [ERequest r])%list /\
    ((200 <= resp_status (server t r) < 300)%Z -> resp_text (server t r) = "" ->
     fst (send_request self server api custom key data method t) = Ok (RRaw (server t r))).
Proof.
  destruct (send_request_shape self server api custom key data method Hm) as [url Hs].
  exists (mkRequest (lower method) url data). rewrite !Hs. unfold bind, http.
  split.
  - apply handle_response_trace.
  - intros H2 Ht. apply handle_response_2xx_empty; assumption.
Qed.

Lemma send_request_empty_2xx_returns_response_witness :
  mem (lower "put") ["post"; "put"; "get"] = true /\
  exists r,
    snd (send_request cfg0 server0 (Some "issue") None (Some (JStr "P-1")) None "put" []) = ([] ++ [ERequest r])%list /\
    ((200 <= resp_status (server0 [] r) < 300)%Z -> resp_text (server0 [] r) = "" ->
     fst (send_request cfg0 server0 (Some "issue") None (Some (JStr "P-1")) None "put" []) = Ok (RRaw (server0 [] r))).
Proof.
  split; [reflexivity|].
  apply (send_request_empty_2xx_returns_response cfg0 server0 (Some "issue") None (Some (JStr "P-1")) None "put" []).
  reflexivity.
Defined.

(** C9, on a concrete input: a PUT answered 204 with an empty body yields
    the response object, not an empty or absent JSON value. *)
Lemma send_request_empty_body_not_json :
  fst (send_request cfg0 server0 (Some "issue") None (Some (JStr "P-1")) (Some (JDict [])) "put" [])
    = Ok (RRaw (mkResponse 204 "" None)) /\
  forall j, fst (send_request cfg0 server0 (Some "issue") None (Some (JStr "P-1")) (Some (JDict [])) "put" [])
              <> Ok (RJson j).
Proof.
  split.
  - vm_compute. reflexivity.
  - intros j. vm_compute. discriminate.
Qed.

(** ** Sprint lookup *)

Lemma find_sprint_first name pre kvs post i :
  Forall (fun p => dget p "name" <> Some (JStr name) /\ exists n, dget p "name" = Some (JStr n)) pre ->
  dget kvs "name" = Some (JStr name) -> dget kvs "id" = Some i ->
  find_sprint (JStr name) (map JDict pre ++ JDict kvs :: map JDict post) = Ok (Some i).
Proof.
  induction pre as [|p pre IH]; intros Hpre Hn Hi; simpl.
  - rewrite Hn. simpl. rewrite String.eqb_refl, Hi. reflexivity.
  - inversion Hpre as [|? ? [Hne [n Hp]] Hrest]; subst.
    rewrite Hp. simpl.
    destruct (String.eqb_spec n name) as [->|Hneq]; [congruence|].
    apply IH; assumption.
Qed.

Lemma find_sprint_absent name sprints :
  Forall (fun p => dget p "name" <> Some (JStr name) /\ exists n, dget p "name" = Some (JStr n)) sprints ->
  find_sprint (JStr name) (map JDict sprints) = Ok None.
Proof.
  induction sprints as [|p sprints IH]; intros H; simpl; [reflexivity|].
  inversion H as [|? ? [Hne [n Hp]] Hrest]; subst.
  rewrite Hp. simpl.
  destruct (String.eqb_spec n name) as [->|Hneq]; [congruence|].
  apply IH; assumption.
Qed.

Lemma board_sprints_url_nonempty self board :
  String.eqb (board_sprints_url self board) "" = false.
Proof. unfold board_sprints_url. destruct (jira_url self); reflexivity. Qed.

Lemma get_sprint_id_reduces self server board name t resp body sprints :
  server t (mkRequest "get" (board_sprints_url self board) None) = resp ->
  (200 <= resp_status resp < 300)%Z -> resp_text resp <> "" ->
  resp_json resp = Some (JDict body) ->
  dget body "values" = Some (JList (map JDict sprints)) ->
  fst (get_sprint_id self server board (JStr name) t) = find_sprint (JStr name) (map JDict sprints).
Proof.
  intros Hs [H1 H2] Ht Hj Hv.
  unfold get_sprint_id. unfold bind at 1.
  rewrite send_request_custom by (reflexivity || apply board_sprints_url_nonempty).
  change (lower "get") with "get". unfold bind, http. rewrite Hs.
  unfold handle_response.
  destruct (Z.leb_spec 400 (resp_status resp)); [lia|]. simpl andb.
  apply String.eqb_neq in Ht. rewrite Ht. simpl negb. rewrite Hj.
  cbn. rewrite Hv. reflexivity.
Qed.

(** C7: when the board's sprint list (the ["values"] of a 2xx JSON answer)
    holds a sprint named exactly [name], [get_sprint_id] returns the id of
    the first such sprint; when it holds none, it returns [None] and raises
    nothing. *)
Theorem get_sprint_id_exact_match self server board name t resp body sprints
    (Hs : server t (mkRequest "get" (board_sprints_url self board) None) = resp)
    (H2xx : (200 <= resp_status resp < 300)%Z)
    (Ht : resp_text resp <> "")
    (Hj : resp_json resp = Some (JDict body))
    (Hv : dget body "values" = Some (JList (map JDict sprints)))
    (Hwf : Forall (fun p => exists n, dget p "name" = Some (JStr n)) sprints) :
  (forall pre kvs post i,
     sprints = (pre ++ kvs :: post)%list ->
     dget kvs "name" = Some (JStr name) -> dget kvs "id" = Some i ->
     Forall (fun p => dget p "name" <> Some (JStr name)) pre ->
     fst (get_sprint_id self server board (JStr name) t) = Ok (Some i)) /\
  (Forall (fun p => dget p "name" <> Some (JStr name)) sprints ->
   fst (get_sprint_id self server board (JStr name) t) = Ok None).
Proof.
  rewrite (get_sprint_id_reduces self server board name t resp body sprints Hs H2xx Ht Hj Hv).
  split.
  - intros pre kvs post i -> Hn Hi Hpre.
    rewrite map_app. simpl.
    apply find_sprint_first; [|assumption|assumption].
    apply Forall_app in Hwf as [Hw _].
    apply Forall_and; assumption.
  - intros Hnone. apply find_sprint_absent. apply Forall_and; assumption.
Qed.

Lemma get_sprint_id_exact_match_witness :
  fst (get_sprint_id cfg0 server0 (JNum 7) (JStr "Sprint 1") []) = Ok (Some (JNum 10)) /\
  fst (get_sprint_id cfg0 server0 (JNum 7) (JStr "Sprint 9") []) = Ok None.
Proof.
  split.
  - apply (proj1 (get_sprint_id_exact_match cfg0 server0 (JNum 7) "Sprint 1" []
             (server0 [] (mkRequest "get" (board_sprints_url cfg0 (JNum 7)) None))
             [("values", JList (map JDict board7_sprints))] board7_sprints
             eq_refl ltac:(vm_compute; split; [intro Hc; discriminate Hc | reflexivity]) ltac:(vm_compute; discriminate)
             eq_refl eq_refl
             ltac:(repeat constructor; eexists; reflexivity))
             [] [("id", JNum 10); ("name", JStr "Sprint 1")] [] (JNum 10));
      [reflexivity | reflexivity | reflexivity | constructor].
  - apply (proj2 (get_sprint_id_exact_match cfg0 server0 (JNum 7) "Sprint 9" []
             (server0 [] (mkRequest "get" (board_sprints_url cfg0 (JNum 7)) None))
             [("values", JList (map JDict board7_sprints))] board7_sprints
             eq_refl ltac:(vm_compute; split; [intro Hc; discriminate Hc | reflexivity]) ltac:(vm_compute; discriminate)
             eq_refl eq_refl
             ltac:(repeat constructor; eexists; reflexivity))).
    repeat constructor. vm_compute. discriminate.
Defined.

(** ** Links from [issuelinks] *)

(** C1: creating an issue whose [issuelinks] holds two entries sends a
    single link request, for the last entry only: the loop rebinds
    [link_type] and [issue_parent_key] and [link_jira_issues] is called
    once, after the loop. *)
Theorem create_links_only_last_entry :
  link_requests (snd (create_new_jira_issue cfg0 server0 "PROJ" linked_task None None []))
  = [link_data (JStr "P-1") (JStr "A-2") (JStr "Relates")].
Proof. vm_compute. reflexivity. Qed.

(** ** Dict values of key and name format fields *)

(** C2: [transform_field_value] iterates over the keys of a dict value and
    unpacks each key into two characters: the entry ["id": "1"] becomes
    [{"i": "d"}], and a key that is not two characters long raises
    [ValueError]. *)
Theorem transform_dict_value_unpacks_keys :
  transform_field_value (JDict [("id", JStr "1")]) "key" = Ok (JList [JDict [("i", JStr "d")]]) /\
  transform_field_value (JDict [("name", JStr "core")]) "key"
    = Err (ValueError "wrong number of values to unpack (expected 2)") /\
  fst (build_issue_data cfg0 server0 "PROJ" (JDict [("components", JDict [("id", JStr "1")])]) [] [])
    = Ok [("components", JList [JDict [("i", JStr "d")]])].
Proof. split; [|split]; vm_compute; reflexivity. Qed.

(** ** A creation answer without an issue key *)

(** C8: when the creation request is answered 201 with a body that has no
    ["key"], [response_data['key']] raises [KeyError] before the check
    that raises the [ValueError] meant for a missing key; that check only
    fires for a present but empty key.  Both abort the walk. *)
Theorem creation_without_key_raises_keyerror :
  fst (create_epics_and_issues cfg0 (server_nokey None) "PROJ" [epic_e1] []) = Err (KeyError "key") /\
  fst (create_epics_and_issues cfg0 (server_nokey (Some "")) "PROJ" [epic_e1] [])
    = Err (ValueError "Failed to retrieve issue key from the Jira response") /\
  creates (snd (create_epics_and_issues cfg0 (server_nokey None) "PROJ" [epic_e1] [])) = [epic_e1].
Proof. split; [|split]; vm_compute; reflexivity. Qed.

(** ** Counterexamples *)

(** C5: a field listed in both nameFormatFields and keyFormatFields is not
    translated to [{name: v}]: the key format is tested first. *)
Lemma name_format_field_counterexample :
  mem "x" (name_format_fields cfg_both) = true /\
  exists m, fst (build_issue_data cfg_both server0 "P" (JDict [("x", JStr "v")]) [] []) = Ok m /\
            dget m "x" <> Some (JDict [("name", JStr "v")]).
Proof.
  split; [reflexivity|].
  eexists. split; [vm_compute; reflexivity|]. vm_compute. discriminate.
Qed.

(** C6: a custom field mapping entry whose tracker field is ["issues"]
    puts the key ["issues"] in the translated fields. *)
Lemma issues_key_counterexample :
  exists m, fst (build_issue_data cfg_issues_target server0 "P" (JDict [("team", JStr "v")]) [] []) = Ok m /\
            In "issues" (keys m).
Proof. eexists. split; [vm_compute; reflexivity|]. simpl. left. reflexivity. Qed.

(** C3: the input field ["issues"] is not in postCreationUpdateFields, yet
    the creation request, the only request sent, does not carry it. *)
Lemma issues_field_not_sent_counterexample :
  mem "issues" (post_creation_update_fields cfg0) = false /\
  snd (create_new_jira_issue cfg0 server0 "PROJ"
         (JDict [("summary", JStr "S"); ("issuetype", JStr "Task"); ("issues", JList [])]) None None [])
  = [ECreate (JDict [("summary", JStr "S"); ("issuetype", JStr "Task"); ("issues", JList [])]);
     ERequest (mkRequest "post" issue_url
       (Some (JDict [("fields", JDict [("summary", JStr "S");
                                       ("issuetype", JDict [("name", JStr "Task")]);
                                       ("project", JDict [("key", JStr "PROJ")])])])))].
Proof. split; vm_compute; reflexivity. Qed.

(** ** Effects of the building blocks on the trace *)

Lemma gets_only_ret {A} (a : A) : gets_only (ret a).
Proof. intros t. exists []. rewrite app_nil_r. split; [reflexivity | constructor]. Qed.

Lemma gets_only_raise {A} e : gets_only (A := A) (raise e).
Proof. intros t. exists []. rewrite app_nil_r. split; [reflexivity | constructor]. Qed.

Lemma gets_only_lift {A} (r : result A) : gets_only (lift r).
Proof. intros t. exists []. rewrite app_nil_r. split; [reflexivity | constructor]. Qed.

Lemma gets_only_bind {A B} (m : M A) (k : A -> M B) :
  gets_only m -> (forall a, gets_only (k a)) -> gets_only (bind m k).
Proof.
  intros Hm Hk t. unfold bind.
  destruct (Hm t) as [g1 [E1 G1]].
  destruct (m t) as [[a|e] t'] eqn:Em; simpl in E1; subst t'.
  - destruct (Hk a (t ++ g1)%list) as [g2 [E2 G2]].
    exists (g1 ++ g2)%list. rewrite E2, app_assoc. split; [reflexivity|].
    apply Forall_app; split; assumption.
  - exists g1. split; [reflexivity | assumption].
Qed.

Lemma requests_only_ret {A} (a : A) : requests_only (ret a).
Proof. intros t. exists []. simpl. rewrite app_nil_r. reflexivity. Qed.

Lemma requests_only_raise {A} e : requests_only (A := A) (raise e).
Proof. intros t. exists []. simpl. rewrite app_nil_r. reflexivity. Qed.

Lemma requests_only_lift {A} (r : result A) : requests_only (lift r).
Proof. intros t. exists []. simpl. rewrite app_nil_r. reflexivity. Qed.

Lemma requests_only_bind {A B} (m : M A) (k : A -> M B) :
  requests_only m -> (forall a, requests_only (k a)) -> requests_only (bind m k).
Proof.
  intros Hm Hk t. unfold bind.
  destruct (Hm t) as [r1 E1].
  destruct (m t) as [[a|e] t'] eqn:Em; simpl in E1; subst t'.
  - destruct (Hk a (t ++ map ERequest r1)%list) as [r2 E2].
    exists (r1 ++ r2)%list. rewrite E2, map_app, app_assoc. reflexivity.
  - exists r1. reflexivity.
Qed.

Lemma gets_requests_only {A} (m : M A) : gets_only m -> requests_only m.
Proof.
  intros Hm t. destruct (Hm t) as [g [E G]]. rewrite E.
  clear E. induction G as [|ev g Hev G IH].
  - exists []. reflexivity.
  - destruct ev as [r|i]; [|contradiction].
    destruct IH as [rs E]. exists (r :: rs).
    apply app_inv_head in E. simpl. rewrite <- E. reflexivity.
Qed.

Lemma handle_response_gets resp : gets_only (handle_response resp).
Proof.
  intros t. exists []. rewrite app_nil_r. split; [apply handle_response_trace | constructor].
Qed.

Lemma send_request_requests self server api custom key data method :
  requests_only (send_request self server api custom key data method).
Proof.
  intros t. unfold send_request.
  destruct (negb _).
  - exists []. simpl. rewrite app_nil_r. reflexivity.
  - cbv zeta. unfold bind at 1, http.
    exists [mkRequest (lower method)
              (match custom with
               | Some u => if negb (String.eqb u "") then u
                           else if mem (lower method) ["put"; "get"] && truthy_opt key
                           then jira_api_base_url self ++ "/" ++ opt_str api ++ "/" ++ py_str (opt_json key)
                           else jira_api_base_url self ++ "/" ++ opt_str api
               | None => if mem (lower method) ["put"; "get"] && truthy_opt key
                         then jira_api_base_url self ++ "/" ++ opt_str api ++ "/" ++ py_str (opt_json key)
                         else jira_api_base_url self ++ "/" ++ opt_str api
               end) data].
    apply handle_response_trace.
Qed.

Lemma send_request_gets self server api custom key data :
  gets_only (send_request self server api custom key data "get").
Proof.
  intros t. destruct (send_request_shape self server api custom key data "get" eq_refl) as [url Hs].
  rewrite Hs. unfold bind at 1, http.
  exists [ERequest (mkRequest "get" url data)].
  split; [apply handle_response_trace | repeat constructor].
Qed.

Ltac gets_only_solve :=
  repeat first
    [ apply gets_only_ret | apply gets_only_raise | apply gets_only_lift
    | apply send_request_gets
    | apply gets_only_bind; [| intro ]
    | match goal with
      | |- gets_only (if ?b then _ else _) => destruct b
      | |- gets_only (match ?x with _ => _ end) => destruct x
      end ].

Lemma get_board_id_gets self server p :
  gets_only (get_board_id_by_project_key self server p).
Proof.
  unfold get_board_id_by_project_key, get_project_id_by_key. gets_only_solve.
Qed.

Lemma get_sprint_id_gets self server b n :
  gets_only (get_sprint_id self server b n).
Proof. unfold get_sprint_id. gets_only_solve. Qed.

Lemma build_field_gets self server p excl acc field :
  gets_only (build_field self server p excl acc field).
Proof.
  unfold build_field. destruct field as [n v].
  repeat first
    [ apply get_board_id_gets | apply get_sprint_id_gets
    | apply gets_only_ret | apply gets_only_raise | apply gets_only_lift
    | apply gets_only_bind; [| intro ]
    | match goal with
      | |- gets_only (if ?b then _ else _) => destruct b
      | |- gets_only (match ?x with _ => _ end) => destruct x
      end ].
Qed.

Lemma foldM_gets {A B} (f : A -> B -> M A) acc l :
  (forall a b, gets_only (f a b)) -> gets_only (foldM f acc l).
Proof.
  intros Hf. revert acc. induction l as [|x l IH]; intros acc; simpl.
  - apply gets_only_ret.
  - apply gets_only_bind; [apply Hf | intros; apply IH].
Qed.

Lemma build_issue_data_gets self server p fields excl :
  gets_only (build_issue_data self server p fields excl).
Proof.
  unfold build_issue_data. destruct fields; try apply gets_only_raise.
  apply foldM_gets. intros. apply build_field_gets.
Qed.

(** ** One iteration of the translation loop *)

Ltac split_hyp H :=
  repeat (cbn [fst snd] in H;
          match type of H with
          | context [match ?x with _ => _ end] => destruct x eqn:?
          end; try discriminate H).

Lemma build_field_result self server p excl acc n v t acc' :
  fst (build_field self server p excl acc (n, v) t) = Ok acc' ->
  match field_target self excl (n, v) with
  | None => acc' = acc
  | Some k => exists w, acc' = dset acc k w
  end.
Proof.
  intros H. unfold build_field, field_target in *. unfold bind, lift, ret, raise in H.
  split_hyp H.
  all: cbn [fst snd] in H; try injection H as <-.
  all: simpl; try reflexivity; try (eexists; reflexivity).
Qed.

Lemma keys_dset {A} (m : list (string * A)) k0 w k :
  In k (keys (dset m k0 w)) <-> In k (keys m) \/ k = k0.
Proof.
  induction m as [|[k' v'] m IH]; simpl.
  - split; [intros [<-|[]]; right; reflexivity | intros [[]| ->]; left; reflexivity].
  - destruct (String.eqb_spec k' k0) as [->|Hne]; simpl.
    + split; [intros [<-|H]; [right; reflexivity | left; right; exact H]
             | intros [[<-|H]| ->]; [left; reflexivity | right; exact H | left; reflexivity]].
    + rewrite IH. tauto.
Qed.

Lemma foldM_build_keys self server p excl kvs : forall acc t m,
  fst (foldM (build_field self server p excl) acc kvs t) = Ok m ->
  forall k, In k (keys m) <->
            In k (keys acc) \/ exists g, In g kvs /\ field_target self excl g = Some k.
Proof.
  induction kvs as [|[n v] kvs IH]; intros acc t m H k; cbn [foldM] in H.
  - injection H as <-. split; [tauto|]. intros [Hk|[g [[] _]]]. exact Hk.
  - unfold bind at 1 in H.
    destruct (build_field self server p excl acc (n, v) t) as [[acc1|e] t1] eqn:E;
      [|simpl in H; discriminate H].
    rewrite (IH acc1 t1 m H k).
    assert (Hr := build_field_result self server p excl acc n v t acc1).
    rewrite E in Hr. specialize (Hr eq_refl).
    destruct (field_target self excl (n, v)) as [k1|] eqn:Et.
    + destruct Hr as [w ->]. rewrite keys_dset.
      split.
      * intros [[Hk| ->]|[g [Hg Hgk]]].
        -- left. exact Hk.
        -- right. exists (n, v). split; [left; reflexivity | exact Et].
        -- right. exists g. split; [right; exact Hg | exact Hgk].
      * intros [Hk|[g [[<-|Hg] Hgk]]].
        -- left. left. exact Hk.
        -- left. right. congruence.
        -- right. exists g. split; assumption.
    + subst acc1. split.
      * intros [Hk|[g [Hg Hgk]]]; [left; exact Hk|].
        right. exists g. split; [right; exact Hg | exact Hgk].
      * intros [Hk|[g [[<-|Hg] Hgk]]]; [left; exact Hk | congruence |].
        right. exists g. split; assumption.
Qed.

(** The fields produced by [_build_issue_data] are the targets of the
    input fields that are not skipped. *)
Lemma build_issue_data_keys self server p kvs excl t m :
  fst (build_issue_data self server p (JDict kvs) excl t) = Ok m ->
  forall k, In k (keys m) <-> exists g, In g kvs /\ field_target self excl g = Some k.
Proof.
  intros H k. unfold build_issue_data in H.
  rewrite (foldM_build_keys self server p excl kvs [] t m H k). simpl. tauto.
Qed.

Lemma str_values_dget kvs n s :
  dget kvs n = Some (JStr s) -> In s (str_values kvs).
Proof.
  induction kvs as [|[k v] kvs IH]; simpl; [discriminate|].
  destruct (String.eqb k n).
  - intros H. injection H as ->. simpl. left. reflexivity.
  - intros H. apply in_or_app. right. apply IH, H.
Qed.

Lemma as_key_cfm_names self c n s :
  dget (custom_field_mapping self) n = Some c -> as_key c = Ok s -> In s (cfm_names self).
Proof.
  intros Hd Hk. destruct c; try discriminate Hk. injection Hk as <-.
  unfold cfm_names. apply in_or_app. left. eapply str_values_dget. exact Hd.
Qed.

Lemma field_target_origin self excl n v k :
  field_target self excl (n, v) = Some k ->
  (k = n /\ n <> "issues" /\ n <> "issuelinks") \/ In k (cfm_names self).
Proof.
  intros H. unfold field_target in H.
  destruct (String.eqb_spec n "issues"); [discriminate H|].
  destruct (mem n excl); [discriminate H|].
  destruct (String.eqb_spec n "issuelinks"); [discriminate H|].
  destruct (mem n (key_format_fields self)); [injection H as <-; left; auto|].
  destruct (mem n (name_format_fields self)); [injection H as <-; left; auto|].
  destruct (dget (custom_field_mapping self) n) as [c|] eqn:Ec.
  { right. destruct (as_key c) as [s|] eqn:Es; [|discriminate H].
    injection H as <-. eapply as_key_cfm_names; eassumption. }
  destruct (nested_mapping self "key_format_fields") as [kf|] eqn:Ek; [|discriminate H].
  destruct (dget kf n) as [c|] eqn:Ec2.
  { right. destruct c; try discriminate H. injection H as <-.
    unfold cfm_names. apply in_or_app. right. rewrite Ek. apply in_or_app. left.
    eapply str_values_dget. exact Ec2. }
  destruct (nested_mapping self "name_format_fields") as [nf|] eqn:En; [|discriminate H].
  destruct (dget nf n) as [c|] eqn:Ec3.
  { right. destruct c; try discriminate H. injection H as <-.
    unfold cfm_names. apply in_or_app. right. rewrite Ek, En. apply in_or_app. right.
    eapply str_values_dget. exact Ec3. }
  injection H as <-. left. auto.
Qed.

Lemma initial_fields_keys self p issue ek pk m m' :
  initial_fields self p issue ek pk m = Ok m' ->
  forall k, In k (keys m') ->
  In k (keys m) \/ k = "project" \/ k = "parent" \/ In k (cfm_names self).
Proof.
  intros H k Hk. unfold initial_fields in H.
  destruct (truthy_opt ek && negb (is_subtask issue)).
  - cbn [rbind subscript] in H.
    destruct (dget (custom_field_mapping self) "epicLink") as [c|] eqn:Ec;
      cbn [rbind] in H; [|discriminate H].
    destruct (as_key c) as [s|] eqn:Es; cbn [rbind] in H; [|discriminate H].
    injection H as <-.
    apply keys_dset in Hk as [Hk| ->].
    + apply keys_dset in Hk as [Hk| ->]; tauto.
    + right. right. right. eapply as_key_cfm_names; eassumption.
  - destruct (is_subtask issue && truthy_opt pk); injection H as <-.
    + apply keys_dset in Hk as [Hk| ->]; [|tauto].
      apply keys_dset in Hk as [Hk| ->]; tauto.
    + apply keys_dset in Hk as [Hk| ->]; tauto.
Qed.

(** ** The structural keys [issues] and [issuelinks] *)

Lemma build_keys_not_structural self server p kvs excl t m k :
  ~ In "issues" (cfm_names self) -> ~ In "issuelinks" (cfm_names self) ->
  fst (build_issue_data self server p (JDict kvs) excl t) = Ok m ->
  In k (keys m) -> k <> "issues" /\ k <> "issuelinks".
Proof.
  intros Hc1 Hc2 Hb Hk.
  apply (build_issue_data_keys self server p kvs excl t m Hb k) in Hk as [[n v] [_ Hg]].
  apply field_target_origin in Hg as [[-> [H1 H2]]|Hin]; [split; assumption|].
  split; intros ->; contradiction.
Qed.

(** C6 (amended): [_build_issue_data] always skips the input entries named
    [issues] and [issuelinks] (the step for such an entry returns the
    accumulated fields unchanged and sends nothing); and unless the custom
    field mapping (top level or its nested key/name tables) names [issues]
    or [issuelinks] as a tracker field, neither key appears in the fields
    produced by [_build_issue_data] (the body of the update request) nor in
    the fields of the creation request built from them. *)
Theorem translated_fields_exclude_structural_keys self server p kvs excl t m :
  (forall acc v t',
     build_field self server p excl acc ("issues", v) t' = (Ok acc, t') /\
     build_field self server p excl acc ("issuelinks", v) t' = (Ok acc, t')) /\
  (~ In "issues" (cfm_names self) ->
   ~ In "issuelinks" (cfm_names self) ->
   fst (build_issue_data self server p (JDict kvs) excl t) = Ok m ->
   ~ In "issues" (keys m) /\ ~ In "issuelinks" (keys m) /\
   (forall epic_key parent_key m',
      initial_fields self p (JDict kvs) epic_key parent_key m = Ok m' ->
      ~ In "issues" (keys m') /\ ~ In "issuelinks" (keys m'))).
Proof.
  split.
  { intros acc v t'. unfold build_field. cbn [String.eqb Ascii.eqb Bool.eqb andb].
    split; [reflexivity|].
    destruct (mem "issuelinks" excl); reflexivity. }
  intros Hc1 Hc2 Hb.
  split; [|split].
  - intros Hk. eapply build_keys_not_structural in Hk; [|eassumption..]. tauto.
  - intros Hk. eapply build_keys_not_structural in Hk; [|eassumption..]. tauto.
  - intros ek pk m' Hi. split; intros Hk.
    + apply (initial_fields_keys self p (JDict kvs) ek pk m m' Hi) in Hk
        as [Hk|[Hk|[Hk|Hk]]]; try discriminate Hk; [|contradiction].
      eapply build_keys_not_structural in Hk; [|eassumption..]. tauto.
    + apply (initial_fields_keys self p (JDict kvs) ek pk m m' Hi) in Hk
        as [Hk|[Hk|[Hk|Hk]]]; try discriminate Hk; [|contradiction].
      eapply build_keys_not_structural in Hk; [|eassumption..]. tauto.
Qed.

Lemma translated_fields_exclude_structural_keys_witness :
  build_field cfg0 server0 "PROJ" [] [("summary", JStr "S")] ("issues", JList []) [] =
    (Ok [("summary", JStr "S")], []) /\
  build_field cfg0 server0 "PROJ" ["issuelinks"] [] ("issuelinks", JList []) [] = (Ok [], []) /\
  ~ In "issues" (keys [("summary", JStr "S"); ("issuetype", JDict [("name", JStr "Task")])]) /\
  ~ In "issuelinks" (keys [("summary", JStr "S"); ("issuetype", JDict [("name", JStr "Task")])]) /\
  (forall epic_key parent_key m',
     initial_fields cfg0 "PROJ" (JDict structural_input) epic_key parent_key
       [("summary", JStr "S"); ("issuetype", JDict [("name", JStr "Task")])] = Ok m' ->
     ~ In "issues" (keys m') /\ ~ In "issuelinks" (keys m')).
Proof.
  split; [apply (translated_fields_exclude_structural_keys cfg0 server0 "PROJ" structural_input [] []
                   [("summary", JStr "S"); ("issuetype", JDict [("name", JStr "Task")])])|].
  split; [apply (translated_fields_exclude_structural_keys cfg0 server0 "PROJ" structural_input ["issuelinks"] []
                   [("summary", JStr "S"); ("issuetype", JDict [("name", JStr "Task")])])|].
  apply (translated_fields_exclude_structural_keys cfg0 server0 "PROJ" structural_input [] []).
  - vm_compute. intuition discriminate.
  - vm_compute. intuition discriminate.
  - vm_compute. reflexivity.
Defined.

(** ** Fields matching no rule *)

Lemma foldM_step_err {A B} (f : A -> B -> M A) x l :
  (forall acc t, exists e, fst (f acc x t) = Err e) -> In x l ->
  forall acc t a, fst (foldM f acc l t) <> Ok a.
Proof.
  intros Hx. induction l as [|y l IH]; intros Hin acc t a; [destruct Hin|].
  cbn [foldM]. unfold bind at 1.
  destruct (f acc y t) as [[acc1|e] t1] eqn:E.
  - destruct Hin as [<-|Hin].
    + destruct (Hx acc t) as [e He]. rewrite E in He. discriminate He.
    + apply IH. exact Hin.
  - simpl. discriminate.
Qed.

Lemma build_field_unmatched self server p excl acc n v t :
  n <> "issues" -> mem n excl = false -> n <> "issuelinks" ->
  mem n (key_format_fields self) = false -> mem n (name_format_fields self) = false ->
  dget (custom_field_mapping self) n = None ->
  build_field self server p excl acc (n, v) t =
  bind (lift (nested_mapping self "key_format_fields")) (fun key_fields =>
    match dget key_fields n with
    | Some custom_field_name =>
        v' <- lift (transform_field_value v "key") ;;
        k <- lift (as_key custom_field_name) ;;
        ret (dset acc k v')
    | None =>
        name_fields <- lift (nested_mapping self "name_format_fields") ;;
        match dget name_fields n with
        | Some custom_field_name =>
            v' <- lift (transform_field_value v "name") ;;
            k <- lift (as_key custom_field_name) ;;
            ret (dset acc k v')
        | None => ret (dset acc n v)
        end
    end) t.
Proof.
  intros H1 H2 H3 H4 H5 H6. unfold build_field.
  apply String.eqb_neq in H1, H3. rewrite H1, H2, H3, H4, H5, H6. reflexivity.
Qed.

(** C10: a field that is not [issues], not excluded, not [issuelinks], in
    neither format list and not a top-level customFieldMapping key is looked
    up in [custom_field_mapping['key_format_fields']] and then in
    [custom_field_mapping['name_format_fields']]: without the first table,
    or without the second when the first does not list the field, the
    iteration raises [KeyError] and the whole translation fails; with both
    tables and the field in neither, it is copied verbatim. *)
Theorem unmatched_field_requires_nested_tables self server p excl n v
    (H1 : n <> "issues") (H2 : mem n excl = false) (H3 : n <> "issuelinks")
    (H4 : mem n (key_format_fields self) = false)
    (H5 : mem n (name_format_fields self) = false)
    (H6 : dget (custom_field_mapping self) n = None) :
  (dget (custom_field_mapping self) "key_format_fields" = None ->
   (forall acc t, fst (build_field self server p excl acc (n, v) t) = Err (KeyError "key_format_fields")) /\
   (forall kvs t m, In (n, v) kvs -> fst (build_issue_data self server p (JDict kvs) excl t) <> Ok m)) /\
  (forall kf, dget (custom_field_mapping self) "key_format_fields" = Some (JDict kf) ->
   dget kf n = None ->
   dget (custom_field_mapping self) "name_format_fields" = None ->
   (forall acc t, fst (build_field self server p excl acc (n, v) t) = Err (KeyError "name_format_fields")) /\
   (forall kvs t m, In (n, v) kvs -> fst (build_issue_data self server p (JDict kvs) excl t) <> Ok m)) /\
  (forall kf nf, dget (custom_field_mapping self) "key_format_fields" = Some (JDict kf) ->
   dget kf n = None ->
   dget (custom_field_mapping self) "name_format_fields" = Some (JDict nf) ->
   dget nf n = None ->
   forall acc t, fst (build_field self server p excl acc (n, v) t) = Ok (dset acc n v)).
Proof.
  assert (Hstep := fun acc t => build_field_unmatched self server p excl acc n v t H1 H2 H3 H4 H5 H6).
  split; [|split].
  - intros Hk.
    assert (He : forall acc t, fst (build_field self server p excl acc (n, v) t) = Err (KeyError "key_format_fields")).
    { intros acc t. rewrite Hstep. unfold nested_mapping. rewrite Hk. reflexivity. }
    split; [exact He|].
    intros kvs t m Hin. unfold build_issue_data.
    apply (foldM_step_err _ (n, v) kvs); [|exact Hin].
    intros acc t'. eexists. apply He.
  - intros kf Hk Hkf Hn.
    assert (He : forall acc t, fst (build_field self server p excl acc (n, v) t) = Err (KeyError "name_format_fields")).
    { intros acc t. rewrite Hstep. unfold nested_mapping. rewrite Hk. cbn. rewrite Hkf.
      unfold bind, lift. rewrite Hn. reflexivity. }
    split; [exact He|].
    intros kvs t m Hin. unfold build_issue_data.
    apply (foldM_step_err _ (n, v) kvs); [|exact Hin].
    intros acc t'. eexists. apply He.
  - intros kf nf Hk Hkf Hn Hnf acc t. rewrite Hstep. unfold nested_mapping.
    rewrite Hk. cbn. rewrite Hkf. unfold bind, lift. rewrite Hn. cbn. rewrite Hnf. reflexivity.
Qed.

Lemma unmatched_field_requires_nested_tables_witness :
  fst (build_field cfg_issues_target server0 "P" [] [] ("summary", JStr "S") [])
    = Err (KeyError "key_format_fields") /\
  fst (build_field cfg0 server0 "P" [] [] ("summary", JStr "S") []) = Ok [("summary", JStr "S")].
Proof.
  split.
  - apply (proj1 (proj1 (unmatched_field_requires_nested_tables cfg_issues_target server0 "P" []
             "summary" (JStr "S") ltac:(discriminate) eq_refl ltac:(discriminate)
             eq_refl eq_refl eq_refl) eq_refl)).
  - apply (proj2 (proj2 (unmatched_field_requires_nested_tables cfg0 server0 "P" []
             "summary" (JStr "S") ltac:(discriminate) eq_refl ltac:(discriminate)
             eq_refl eq_refl eq_refl))
             [("team", JStr "customfield_20000")] [("severity", JStr "customfield_20001")]
             eq_refl eq_refl eq_refl eq_refl).
Defined.

(** ** Scalar values of key and name format fields *)

Lemma dget_dset_same {A} (m : list (string * A)) k v : dget (dset m k v) k = Some v.
Proof.
  induction m as [|[k' v'] m IH]; simpl.
  - rewrite String.eqb_refl. reflexivity.
  - destruct (String.eqb_spec k' k) as [->|Hne]; simpl.
    + rewrite String.eqb_refl. reflexivity.
    + apply String.eqb_neq in Hne. rewrite Hne. exact IH.
Qed.

Lemma dget_dset_other {A} (m : list (string * A)) k v k2 :
  k <> k2 -> dget (dset m k v) k2 = dget m k2.
Proof.
  intros Hne. induction m as [|[k' v'] m IH]; simpl.
  - apply String.eqb_neq in Hne. rewrite Hne. reflexivity.
  - destruct (String.eqb_spec k' k) as [->|Hne']; simpl.
    + apply String.eqb_neq in Hne. rewrite Hne. reflexivity.
    + rewrite IH. reflexivity.
Qed.

Lemma foldM_app_cons {A B} (f : A -> B -> M A) pre x post : forall acc t m,
  fst (foldM f acc (pre ++ x :: post) t) = Ok m ->
  exists acc1 t1 acc2 t2,
    foldM f acc pre t = (Ok acc1, t1) /\ f acc1 x t1 = (Ok acc2, t2) /\
    fst (foldM f acc2 post t2) = Ok m.
Proof.
  induction pre as [|y pre IH]; intros acc t m H; cbn [foldM app] in H |- *.
  - unfold bind at 1 in H.
    destruct (f acc x t) as [[acc2|e] t2] eqn:E; [|discriminate H].
    exists acc, t, acc2, t2. split; [reflexivity|]. split; [exact E | exact H].
  - unfold bind at 1 in H. unfold bind at 1.
    destruct (f acc y t) as [[acc1|e] t1] eqn:E; [|discriminate H].
    exact (IH acc1 t1 m H).
Qed.

Lemma foldM_build_preserves self server p excl f : forall post acc t m,
  Forall (fun g => field_target self excl g <> Some f) post ->
  fst (foldM (build_field self server p excl) acc post t) = Ok m ->
  dget m f = dget acc f.
Proof.
  induction post as [|[n v] post IH]; intros acc t m Hpost H; cbn [foldM] in H.
  - injection H as <-. reflexivity.
  - inversion Hpost as [|? ? Hg Hrest]; subst.
    unfold bind at 1 in H.
    destruct (build_field self server p excl acc (n, v) t) as [[acc1|e] t1] eqn:E;
      [|discriminate H].
    rewrite (IH acc1 t1 m Hrest H).
    assert (Hr := build_field_result self server p excl acc n v t acc1).
    rewrite E in Hr. specialize (Hr eq_refl).
    destruct (field_target self excl (n, v)) as [k|].
    + destruct Hr as [w ->]. apply dget_dset_other. congruence.
    + subst. reflexivity.
Qed.

Lemma transform_scalar v key_type :
  (forall kvs, v <> JDict kvs) -> transform_field_value v key_type = Ok (JDict [(key_type, v)]).
Proof. intros Hv. destruct v; try reflexivity. exfalso. eapply Hv. reflexivity. Qed.

(** C5 (amended): for a field [f] other than [issues] and [issuelinks] and
    not excluded, with a value [v] that is not a dict: if [f] is in
    keyFormatFields, the translated fields map [f] to [{key: v}]; if [f] is
    in nameFormatFields and not in keyFormatFields, they map [f] to
    [{name: v}] (the key format takes precedence).  This holds in any input
    where no later field is written under the tracker field [f]. *)
Theorem scalar_format_field_translation self server p excl pre f v post t m
    (H1 : f <> "issues") (H2 : f <> "issuelinks") (H3 : mem f excl = false)
    (Hv : forall kvs, v <> JDict kvs)
    (Hpost : Forall (fun g => field_target self excl g <> Some f) post)
    (Hb : fst (build_issue_data self server p (JDict (pre ++ (f, v) :: post)) excl t) = Ok m) :
  (mem f (key_format_fields self) = true -> dget m f = Some (JDict [("key", v)])) /\
  (mem f (key_format_fields self) = false -> mem f (name_format_fields self) = true ->
   dget m f = Some (JDict [("name", v)])).
Proof.
  unfold build_issue_data in Hb.
  destruct (foldM_app_cons _ pre (f, v) post [] t m Hb) as (acc1 & t1 & acc2 & t2 & _ & Hstep & Hrest).
  rewrite (foldM_build_preserves self server p excl f post acc2 t2 m Hpost Hrest).
  unfold build_field in Hstep.
  apply String.eqb_neq in H1, H2. rewrite H1, H3, H2 in Hstep.
  split.
  - intros Hk. rewrite Hk in Hstep. unfold bind, lift in Hstep.
    rewrite transform_scalar in Hstep by exact Hv.
    injection Hstep as <- _. apply dget_dset_same.
  - intros Hk Hn. rewrite Hk, Hn in Hstep. unfold bind, lift in Hstep.
    rewrite transform_scalar in Hstep by exact Hv.
    injection Hstep as <- _. apply dget_dset_same.
Qed.

Lemma scalar_format_field_translation_witness :
  (mem "priority" (key_format_fields cfg0) = true ->
   dget [("summary", JStr "S"); ("priority", JDict [("name", JStr "High")])] "priority"
     = Some (JDict [("key", JStr "High")])) /\
  (mem "priority" (key_format_fields cfg0) = false -> mem "priority" (name_format_fields cfg0) = true ->
   dget [("summary", JStr "S"); ("priority", JDict [("name", JStr "High")])] "priority"
     = Some (JDict [("name", JStr "High")])).
Proof.
  apply (scalar_format_field_translation cfg0 server0 "PROJ" [] [("summary", JStr "S")]
           "priority" (JStr "High") [("issues", JList [])] []).
  - discriminate.
  - discriminate.
  - reflexivity.
  - intros kvs Hc. discriminate Hc.
  - repeat constructor. discriminate.
  - vm_compute. reflexivity.
Defined.

(** ** Creation-time and post-creation fields *)

Lemma handle_response_run resp t r t' : handle_response resp t = (r, t') -> t' = t.
Proof. intros E. rewrite <- (handle_response_trace resp t), E. reflexivity. Qed.

Lemma gets_only_run {A} (m : M A) t r t' :
  gets_only m -> m t = (r, t') -> exists g, t' = (t ++ g)%list /\ Forall is_get g.
Proof.
  intros Hm E. destruct (Hm t) as [g [Eg G]]. rewrite E in Eg. simpl in Eg.
  exists g. split; assumption.
Qed.

Lemma bind_ok {A B} (m : M A) (k : A -> M B) t b :
  fst (bind m k t) = Ok b ->
  exists a t', m t = (Ok a, t') /\ fst (k a t') = Ok b /\ snd (bind m k t) = snd (k a t').
Proof.
  unfold bind. destruct (m t) as [[a|e] t'].
  - intros H. exists a, t'. auto.
  - simpl. discriminate.
Qed.

Lemma mem_In x l : mem x l = true <-> In x l.
Proof.
  unfold mem. rewrite existsb_exists. split.
  - intros [y [Hy Heq]]. apply String.eqb_eq in Heq. subst. exact Hy.
  - intros H. exists x. split; [exact H | apply String.eqb_refl].
Qed.

Lemma field_target_exclude self excl n v :
  field_target self excl (n, v) = if mem n excl then None else field_target self [] (n, v).
Proof.
  unfold field_target. destruct (String.eqb n "issues"); destruct (mem n excl); reflexivity.
Qed.

Lemma mem_creation_fields post (kvs : list (string * json)) g :
  In g kvs ->
  mem (fst g) (filter (fun k => negb (mem k post)) (keys kvs)) = negb (mem (fst g) post).
Proof.
  intros Hg. destruct (mem (fst g) post) eqn:Ep; simpl.
  - apply Bool.not_true_is_false. intros Hm. apply mem_In, filter_In in Hm as [_ Hm].
    rewrite Ep in Hm. discriminate Hm.
  - apply mem_In, filter_In. split.
    + apply in_map. exact Hg.
    + rewrite Ep. reflexivity.
Qed.

Lemma send_request_post_default self server api data t :
  send_request self server (Some api) None None (Some data) "post" t =
  bind (http server (mkRequest "post" (jira_api_base_url self ++ "/" ++ api) (Some data)))
       handle_response t.
Proof. reflexivity. Qed.

Lemma send_request_put_key self server api key data t :
  truthy key = true ->
  send_request self server (Some api) None (Some key) (Some data) "put" t =
  bind (http server (mkRequest "put" (jira_api_base_url self ++ "/" ++ api ++ "/" ++ py_str key) (Some data)))
       handle_response t.
Proof. intros Hk. unfold send_request. cbn. rewrite Hk. reflexivity. Qed.

Lemma issuelinks_step_requests self server issue key :
  requests_only
    (if mem "issuelinks" (dict_keys issue) then
       links <- lift (rbind (subscript issue "issuelinks") py_iter) ;;
       last <- lift (issuelinks_loop None links) ;;
       match last with
       | None => raise (NameError "link_type")
       | Some (link_type, issue_parent_key) =>
           link_jira_issues self server key issue_parent_key link_type ;;; ret tt
       end
     else ret tt).
Proof.
  destruct (mem "issuelinks" (dict_keys issue)); [|apply requests_only_ret].
  apply requests_only_bind; [apply requests_only_lift|intros links].
  apply requests_only_bind; [apply requests_only_lift|intros [[lt pk]|]].
  - apply requests_only_bind; [apply send_request_requests|intros; apply requests_only_ret].
  - apply requests_only_raise.
Qed.


Lemma build_keys_split self server p kvs excl t m :
  fst (build_issue_data self server p (JDict kvs) excl t) = Ok m ->
  forall k, In k (keys m) <->
    exists g, In g kvs /\ mem (fst g) excl = false /\ field_target self [] g = Some k.
Proof.
  intros H k. rewrite (build_issue_data_keys self server p kvs excl t m H k).
  split.
  - intros [[n v] [Hg Ht]]. rewrite field_target_exclude in Ht.
    exists (n, v). simpl. destruct (mem n excl); [discriminate Ht|]. auto.
  - intros [[n v] [Hg [He Ht]]]. exists (n, v). rewrite field_target_exclude. simpl in He.
    rewrite He. auto.
Qed.

(** C3 (amended): when [create_new_jira_issue] succeeds, its trace is the
    creation request, then the update request when there is anything to
    update, then the link requests, with only GET lookups (board and sprint)
    in between.  The creation request carries the translation of exactly
    the input fields whose names are not in postCreationUpdateFields (with
    the project and the epic link or parent added); the update request
    carries the translation of exactly the input fields whose names are in
    postCreationUpdateFields, and is sent iff there is one.  The entries
    [issues] and [issuelinks] have no translation and are in neither body. *)
Theorem create_issue_splits_fields self server p kvs epic_key parent_key t r
    (Hok : fst (create_new_jira_issue self server p (JDict kvs) epic_key parent_key t) = Ok r) :
  exists g1 m1 body1 key g2 m2 rs,
    snd (create_new_jira_issue self server p (JDict kvs) epic_key parent_key t) =
      (t ++ ECreate (JDict kvs) :: g1 ++
       ERequest (mkRequest "post" (jira_api_base_url self ++ "/issue")
                  (Some (JDict [("fields", JDict body1)]))) ::
       g2 ++ put_request self key m2 ++ map ERequest rs)%list /\
    Forall is_get g1 /\ Forall is_get g2 /\
    initial_fields self p (JDict kvs) epic_key parent_key m1 = Ok body1 /\
    (forall k, In k (keys m1) <->
       exists g, In g kvs /\ mem (fst g) (post_creation_update_fields self) = false /\
                 field_target self [] g = Some k) /\
    (forall k, In k (keys m2) <->
       exists g, In g kvs /\ mem (fst g) (post_creation_update_fields self) = true /\
                 field_target self [] g = Some k) /\
    field_target self [] ("issues", JNull) = None /\
    field_target self [] ("issuelinks", JNull) = None.
Proof.
  unfold create_new_jira_issue in *.
  apply bind_ok in Hok as (u & t0 & E0 & Hok & ->).
  unfold emit in E0. injection E0 as _ <-.
  apply bind_ok in Hok as (m1 & t1 & E1 & Hok & ->).
  destruct (gets_only_run _ _ _ _ (build_issue_data_gets _ _ _ _ _) E1) as [g1 [-> Gg1]].
  assert (K1 := build_keys_split self server p kvs (post_creation_update_fields self) _ m1
                  (f_equal fst E1)).
  apply bind_ok in Hok as (body1 & t2 & E2 & Hok & ->).
  unfold lift in E2. injection E2 as Ei <-.
  apply bind_ok in Hok as (rep & t3 & E3 & Hok & ->).
  rewrite send_request_post_default in E3. unfold bind, http in E3.
  apply handle_response_run in E3. subst t3.
  apply bind_ok in Hok as (key & t4 & E4 & Hok & ->).
  unfold lift in E4. injection E4 as Ek <-.
  destruct (truthy key) eqn:Etk; [|simpl in Hok; discriminate Hok].
  cbv zeta in Hok |- *. cbn [negb] in Hok |- *.
  apply bind_ok in Hok as (m2 & t5 & E5 & Hok & ->).
  destruct (gets_only_run _ _ _ _ (build_issue_data_gets _ _ _ _ _) E5) as [g2 [-> Gg2]].
  assert (K2 := build_keys_split self server p kvs _ _ m2 (f_equal fst E5)).
  apply bind_ok in Hok as (u1 & t6 & E6 & Hok & ->).
  apply bind_ok in Hok as (u2 & t7 & E7 & Hok & ->).
  destruct (issuelinks_step_requests self server (JDict kvs) key t6) as [rs Ers].
  rewrite E7 in Ers. simpl in Ers. subst t7.
  exists g1, m1, body1, key, g2, m2, rs.
  split; [|split; [exact Gg1|split; [exact Gg2|split; [exact Ei|split; [|split; [|split; reflexivity]]]]]].
  - unfold ret. simpl snd.
    destruct m2 as [|f2 m2'].
    + unfold ret in E6. injection E6 as _ <-.
      simpl put_request. rewrite <- !app_assoc. reflexivity.
    + unfold bind at 1 in E6.
      rewrite send_request_put_key in E6 by exact Etk. unfold bind, http in E6.
      match type of E6 with
      | context [handle_response ?resp ?tr] =>
          assert (Et6 := handle_response_trace resp tr);
          destruct (handle_response resp tr) as [[rr|ee] tt] eqn:Eh
      end.
      * simpl in Et6. subst tt. unfold ret in E6. injection E6 as _ <-.
        unfold put_request. rewrite <- !app_assoc. reflexivity.
      * simpl in E6. discriminate E6.
  - exact K1.
  - intros k. rewrite (K2 k). split.
    + intros [g [Hg [He Ht]]]. exists g. split; [exact Hg|]. split; [|exact Ht].
      rewrite (mem_creation_fields _ kvs g Hg) in He.
      destruct (mem (fst g) (post_creation_update_fields self)); [reflexivity | discriminate He].
    + intros [g [Hg [He Ht]]]. exists g. split; [exact Hg|]. split; [|exact Ht].
      simpl dict_keys. rewrite (mem_creation_fields _ kvs g Hg), He. reflexivity.
Qed.

Lemma create_issue_splits_fields_witness :
  exists g1 m1 body1 key g2 m2 rs,
    snd (create_new_jira_issue cfg0 server0 "PROJ" (JDict labelled_task) None None []) =
      ([] ++ ECreate (JDict labelled_task) :: g1 ++
       ERequest (mkRequest "post" (jira_api_base_url cfg0 ++ "/issue")
                  (Some (JDict [("fields", JDict body1)]))) ::
       g2 ++ put_request cfg0 key m2 ++ map ERequest rs)%list /\
    Forall is_get g1 /\ Forall is_get g2 /\
    initial_fields cfg0 "PROJ" (JDict labelled_task) None None m1 = Ok body1 /\
    (forall k, In k (keys m1) <->
       exists g, In g labelled_task /\ mem (fst g) (post_creation_update_fields cfg0) = false /\
                 field_target cfg0 [] g = Some k) /\
    (forall k, In k (keys m2) <->
       exists g, In g labelled_task /\ mem (fst g) (post_creation_update_fields cfg0) = true /\
                 field_target cfg0 [] g = Some k) /\
    field_target cfg0 [] ("issues", JNull) = None /\
    field_target cfg0 [] ("issuelinks", JNull) = None.
Proof.
  apply (create_issue_splits_fields cfg0 server0 "PROJ" labelled_task None None []
           (RJson (JDict [("id", JStr "1000"); ("key", JStr "P-1")]))).
  vm_compute. reflexivity.
Defined.

(** ** Creation order of the tree build *)

Lemma creates_app t1 t2 : creates (t1 ++ t2)%list = (creates t1 ++ creates t2)%list.
Proof. unfold creates. apply flat_map_app. Qed.

Lemma creates_requests rs : creates (map ERequest rs) = [].
Proof. induction rs; simpl; auto. Qed.

Lemma walk_ok_requests {A} (m : M A) : requests_only m -> walk_ok m [].
Proof.
  intros Hm t. destruct (Hm t) as [rs E]. exists [], [].
  rewrite E, creates_app, creates_requests. repeat split.
Qed.

Lemma walk_ok_eq {A} (m : M A) o o' : o = o' -> walk_ok m o -> walk_ok m o'.
Proof. intros ->. auto. Qed.

Lemma walk_ok_ext {A} (m' m : M A) o : (forall t, m' t = m t) -> walk_ok m o -> walk_ok m' o.
Proof. intros E H t. rewrite E. apply H. Qed.

Lemma walk_ok_bind {A B} (m : M A) (k : A -> M B) o1 o2 :
  walk_ok m o1 -> (forall a, walk_ok (k a) o2) -> walk_ok (bind m k) (o1 ++ o2)%list.
Proof.
  intros Hm Hk t. unfold bind.
  destruct (Hm t) as [q1 [r1 [Eo1 [Ec1 Hr1]]]].
  destruct (m t) as [[a|e] t1]; simpl in *.
  - specialize (Hr1 a eq_refl). subst r1. rewrite app_nil_r in Eo1. subst o1.
    destruct (Hk a t1) as [q2 [r2 [Eo2 [Ec2 Hr2]]]].
    exists (q1 ++ q2)%list, r2. split; [rewrite Eo2, app_assoc; reflexivity |].
    split; [rewrite Ec2, Ec1, app_assoc; reflexivity | exact Hr2].
  - exists q1, (r1 ++ o2)%list. split; [rewrite Eo1, app_assoc; reflexivity |].
    split; [exact Ec1 | intros a' Ha'; discriminate Ha'].
Qed.

Lemma bind_ext {A B} (m : M A) (k k' : A -> M B) :
  (forall a t, k a t = k' a t) -> forall t, bind m k t = bind m k' t.
Proof. intros E t. unfold bind. destruct (m t) as [[a|e] t1]; auto. Qed.

Lemma walk_ok_create_prefix {A} i (k : M A) :
  requests_only k -> walk_ok (emit (ECreate i) ;;; k) [i].
Proof.
  intros Hk t. unfold bind, emit. cbn beta iota.
  destruct (Hk (t ++ [ECreate i])%list) as [rs E].
  exists [i], []. rewrite E, !creates_app, creates_requests. simpl.
  rewrite !app_nil_r. repeat split.
Qed.

Ltac requests_only_solve :=
  repeat first
    [ apply requests_only_ret | apply requests_only_raise | apply requests_only_lift
    | apply send_request_requests
    | apply gets_requests_only, build_issue_data_gets
    | apply issuelinks_step_requests
    | apply requests_only_bind; [| intro ]
    | progress cbv zeta
    | progress unfold link_jira_issues
    | match goal with
      | |- requests_only (if ?b then _ else _) => destruct b
      | |- requests_only (match ?x with _ => _ end) => destruct x
      end ].

Lemma create_new_walk self server p i ek pk :
  walk_ok (create_new_jira_issue self server p i ek pk) [i].
Proof.
  unfold create_new_jira_issue. apply walk_ok_create_prefix. requests_only_solve.
Qed.

Lemma create_list_item_walk self server p it ek pk :
  walk_ok (create_list_item self server p it ek pk) [it].
Proof.
  unfold create_list_item.
  apply (walk_ok_eq _ ([] ++ ([] ++ ([it] ++ ([] ++ ([] ++ [])))))%list); [reflexivity |].
  apply walk_ok_bind; [apply walk_ok_requests, requests_only_lift | intros _].
  apply walk_ok_bind; [apply walk_ok_requests, requests_only_lift | intros _].
  apply walk_ok_bind; [apply create_new_walk | intros resp].
  apply walk_ok_bind; [apply walk_ok_requests, requests_only_lift | intros key].
  apply walk_ok_bind; [apply walk_ok_requests; requests_only_solve | intros _].
  apply walk_ok_requests, requests_only_ret.
Qed.

Lemma children_eq self server p ek key kvs :
  (fix children (kvs : list (string * json)) : M unit :=
     match kvs with
     | [] => ret tt
     | (k, v) :: more =>
         if String.eqb k "issues"
         then create_list_of_jira_issues self server p v ek (Some key)
         else children more
     end) kvs =
  match dget kvs "issues" with
  | Some v => create_list_of_jira_issues self server p v ek (Some key)
  | None => ret tt
  end.
Proof.
  induction kvs as [|[k v] more IH]; [reflexivity |].
  simpl. destruct (String.eqb k "issues"); [reflexivity | exact IH].
Qed.

Lemma create_list_cons self server p it rest ek pk t :
  create_list_of_jira_issues self server p (JList (it :: rest)) ek pk t =
  (key <- create_list_item self server p it ek pk ;;
   match it with
   | JDict kvs =>
       match dget kvs "issues" with
       | Some v => create_list_of_jira_issues self server p v ek (Some key)
       | None => ret tt
       end
   | _ => ret tt
   end ;;;
   create_list_of_jira_issues self server p (JList rest) ek pk) t.
Proof.
  cbn [create_list_of_jira_issues]. apply bind_ext. intros key t'.
  destruct it as [| | | | | kvs]; try reflexivity.
  rewrite children_eq. reflexivity.
Qed.

Lemma issue_tree_order_cons it rest :
  issue_tree_order (JList (it :: rest)) =
  (it :: nested_issues_order it ++ issue_tree_order (JList rest))%list.
Proof.
  simpl. f_equal. f_equal.
  destruct it as [| | | | | kvs]; try reflexivity.
  unfold nested_issues_order.
  induction kvs as [|[k v] more IH]; [reflexivity |].
  simpl. destruct (String.eqb k "issues"); [reflexivity | exact IH].
Qed.

Lemma size_in_list it items :
  In it items -> json_size it <= list_sum (map json_size items).
Proof.
  induction items as [|x rest IH]; simpl; [contradiction |].
  intros [-> | Hin]; [lia |]. specialize (IH Hin). lia.
Qed.

Lemma size_dget kvs k v :
  dget kvs k = Some v -> json_size v < json_size (JDict kvs).
Proof.
  induction kvs as [|[k' v'] more IH]; simpl; [discriminate |].
  destruct (String.eqb k' k).
  - intros E. injection E as <-. lia.
  - intros E. specialize (IH E). simpl in IH. lia.
Qed.

Lemma create_list_walk self server p :
  forall n j, json_size j < n ->
  forall ek pk,
    walk_ok (create_list_of_jira_issues self server p j ek pk) (issue_tree_order j).
Proof.
  induction n as [|n IHn]; intros j Hj ek pk; [lia |].
  destruct j as [| b | z | s | items | kvs];
    try (apply walk_ok_requests; simpl; requests_only_solve; fail).
  assert (Hch : forall it, In it items -> forall kvs v,
             it = JDict kvs -> dget kvs "issues" = Some v -> json_size v < n).
  { intros it Hin kvs v -> Ed. apply size_dget in Ed.
    apply size_in_list in Hin. simpl in Hj. lia. }
  clear Hj. induction items as [|it rest IHi].
  - apply walk_ok_requests, requests_only_ret.
  - eapply walk_ok_ext; [intros t; apply create_list_cons |].
    rewrite issue_tree_order_cons.
    change (it :: ?x)%list with ([it] ++ x)%list.
    apply walk_ok_bind; [apply create_list_item_walk | intros key].
    apply walk_ok_bind.
    + destruct it as [| | | | | kvs];
        try (apply walk_ok_requests, requests_only_ret).
      unfold nested_issues_order.
      destruct (dget kvs "issues") as [v|] eqn:Ed.
      * apply IHn. eapply Hch; [left; reflexivity | reflexivity | exact Ed].
      * apply walk_ok_requests, requests_only_ret.
    + intros _. apply IHi. intros it' Hin. apply Hch. right. exact Hin.
Qed.

Lemma create_epics_walk self server p epics :
  walk_ok (create_epics_and_issues self server p epics) (epics_order epics).
Proof.
  induction epics as [|epic rest IH].
  - apply walk_ok_requests, requests_only_ret.
  - cbn [create_epics_and_issues].
    apply (walk_ok_eq _
             ([] ++ ([epic] ++ ([] ++ (nested_issues_order epic ++ epics_order rest)))))%list;
      [reflexivity |].
    apply walk_ok_bind; [apply walk_ok_requests, requests_only_lift | intros _].
    apply walk_ok_bind; [apply create_new_walk | intros resp].
    apply walk_ok_bind; [apply walk_ok_requests, requests_only_lift | intros key].
    apply walk_ok_bind; [| intros _; exact IH].
    destruct epic as [| | | | | kvs]; try (apply walk_ok_requests, requests_only_ret).
    unfold py_in, dhas, subscript, nested_issues_order.
    destruct (dget kvs "issues") as [v|] eqn:Ed.
    + apply (walk_ok_ext _ (create_list_of_jira_issues self server p v (Some key) None));
        [intros t; reflexivity |].
      apply (create_list_walk self server p (S (json_size v))). lia.
    + apply walk_ok_requests, requests_only_ret.
Qed.

(** C4: the issue specifications passed to [create_new_jira_issue] by
    [create_epics_and_issues] follow [epics_order]: the epics in input
    order, each followed by the issues nested under it, depth-first, each
    issue before the issues of its own ['issues'] list.  A run that stops on
    an error has created a prefix of that order; a run that succeeds has
    created all of it. *)
Theorem create_epics_depth_first_order self server p epics t :
  (exists q rest,
     epics_order epics = (q ++ rest)%list /\
     creates (snd (create_epics_and_issues self server p epics t)) = (creates t ++ q)%list) /\
  (forall u, fst (create_epics_and_issues self server p epics t) = Ok u ->
     creates (snd (create_epics_and_issues self server p epics t)) =
     (creates t ++ epics_order epics)%list).
Proof.
  destruct (create_epics_walk self server p epics t) as [q [rest [Eo [Ec Hr]]]].
  split.
  - exists q, rest. split; assumption.
  - intros u Hu. specialize (Hr u Hu). subst rest.
    rewrite app_nil_r in Eo. rewrite Ec, Eo. reflexivity.
Qed.

Lemma create_epics_depth_first_order_witness :
  fst (create_epics_and_issues cfg0 server0 "PROJ" epic_tree []) = Ok tt /\
  creates (snd (create_epics_and_issues cfg0 server0 "PROJ" epic_tree [])) =
  epics_order epic_tree.
Proof.
  split; [vm_compute; reflexivity |].
  apply (proj2 (create_epics_depth_first_order cfg0 server0 "PROJ" epic_tree []) tt).
  vm_compute. reflexivity.
Defined.


(** ** Further properties of the client *)

Lemma handle_response_fst resp t :
  handle_response resp t = (fst (handle_response resp []), t).
Proof.
  unfold handle_response.
  destruct (_ && _); [reflexivity |].
  destruct (negb _); [destruct (resp_json resp) |]; reflexivity.
Qed.

(** Constructing a [Jira] object sends exactly one request, a GET of
    [<api base>/myself], and succeeds iff its status is 200; any other
    status, other 2xx ones included, raises [RuntimeError]. *)
Theorem jira_init_validates server url api tok special t :
  snd (jira_init server url api tok special t) =
    (t ++ [ERequest (mkRequest "get" (jira_api_base_url (make_jira url api special) ++ "/myself") None)])%list /\
  fst (jira_init server url api tok special t) =
    if Z.eqb (resp_status (server t (mkRequest "get"
                (jira_api_base_url (make_jira url api special) ++ "/myself") None))) 200
    then Ok (make_jira url api special)
    else Err (RuntimeError "Failed to validate Jira URL or token. Check log for details.").
Proof.
  unfold jira_init, validate_credentials, bind, http, ret, raise. cbv zeta.
  destruct (Z.eqb _ 200); split; reflexivity.
Qed.

(** The API base path may be given with or without its leading slash. *)
Theorem make_jira_leading_slash_optional url rest special :
  startswith_slash rest = false ->
  jira_api_base_url (make_jira url ("/" ++ rest) special) =
  jira_api_base_url (make_jira url rest special).
Proof. intros H. simpl. rewrite H. reflexivity. Qed.

Lemma make_jira_leading_slash_optional_witness :
  startswith_slash "rest/api/2" = false /\
  jira_api_base_url (make_jira "https://jira.example" ("/" ++ "rest/api/2") []) =
  jira_api_base_url (make_jira "https://jira.example" "rest/api/2" []).
Proof.
  split; [reflexivity |].
  apply (make_jira_leading_slash_optional "https://jira.example" "rest/api/2" []).
  reflexivity.
Defined.

(** A method other than post, put or get (in any letter case) raises
    [ValueError] before anything is sent. *)
Theorem send_request_invalid_method self server api custom key data method t :
  mem (lower method) ["post"; "put"; "get"] = false ->
  send_request self server api custom key data method t =
  (Err (ValueError "Invalid HTTP method. Allowed methods are post, put, get."), t).
Proof. intros H. unfold send_request. cbv zeta. rewrite H. reflexivity. Qed.

Lemma send_request_invalid_method_witness :
  mem (lower "DELETE") ["post"; "put"; "get"] = false /\
  send_request cfg0 server0 (Some "issue") None None None "DELETE" [] =
  (Err (ValueError "Invalid HTTP method. Allowed methods are post, put, get."), []).
Proof.
  split; [reflexivity |].
  apply (send_request_invalid_method cfg0 server0 (Some "issue") None None None "DELETE" []).
  reflexivity.
Defined.

(** With a valid method, in any letter case, [send_request] sends exactly
    one request, with the lower-case method and the given data.  A status
    from 400 to 599 raises [HTTPError]; any other status is a success, whose
    value is the parsed body when the body is nonempty JSON, and
    [{'response_text': text}] when it is nonempty and not JSON. *)
Theorem send_request_response_handling self server api custom key data method t :
  mem (lower method) ["post"; "put"; "get"] = true ->
  exists url,
    let r := mkRequest (lower method) url data in
    let resp := server t r in
    snd (send_request self server api custom key data method t) = (t ++ [ERequest r])%list /\
    ((400 <= resp_status resp < 600)%Z ->
       fst (send_request self server api custom key data method t) = Err (HTTPError (resp_status resp))) /\
    (~ (400 <= resp_status resp < 600)%Z -> resp_text resp <> "" ->
       fst (send_request self server api custom key data method t) =
       Ok (RJson (match resp_json resp with
                  | Some j => j
                  | None => JDict [("response_text", JStr (resp_text resp))]
                  end))).
Proof.
  intros Hm. destruct (send_request_shape self server api custom key data method Hm) as [url Hs].
  exists url. cbv zeta. rewrite !Hs. unfold bind, http.
  rewrite handle_response_fst. split; [reflexivity |]. split.
  - intros Hr. unfold handle_response.
    replace ((400 <=? _)%Z && (_ <? 600)%Z) with true; [reflexivity |].
    symmetry. apply andb_true_iff. split; [apply Z.leb_le | apply Z.ltb_lt]; lia.
  - intros Hr Ht. unfold handle_response.
    replace ((400 <=? _)%Z && (_ <? 600)%Z) with false.
    + apply String.eqb_neq in Ht. rewrite Ht. simpl.
      destruct (resp_json _); reflexivity.
    + symmetry. apply andb_false_iff.
      destruct (Z.leb_spec 400 (resp_status (server t (mkRequest (lower method) url data)))).
      * right. apply Z.ltb_ge. lia.
      * left. reflexivity.
Qed.

Lemma send_request_response_handling_witness :
  fst (send_request cfg0 server0 (Some "nothing") None None None "GET" []) = Err (HTTPError 404) /\
  fst (send_request cfg0 server_text (Some "issue") None None None "post" []) =
    Ok (RJson (JDict [("response_text", JStr "OK")])) /\
  mem (lower "GET") ["post"; "put"; "get"] = true /\
  exists url,
    let r := mkRequest (lower "GET") url None in
    let resp := server0 [] r in
    snd (send_request cfg0 server0 (Some "nothing") None None None "GET" []) = ([] ++ [ERequest r])%list /\
    ((400 <= resp_status resp < 600)%Z ->
       fst (send_request cfg0 server0 (Some "nothing") None None None "GET" []) = Err (HTTPError (resp_status resp))) /\
    (~ (400 <= resp_status resp < 600)%Z -> resp_text resp <> "" ->
       fst (send_request cfg0 server0 (Some "nothing") None None None "GET" []) =
       Ok (RJson (match resp_json resp with
                  | Some j => j
                  | None => JDict [("response_text", JStr (resp_text resp))]
                  end))).
Proof.
  split; [vm_compute; reflexivity |].
  split; [vm_compute; reflexivity |].
  split; [reflexivity |].
  apply (send_request_response_handling cfg0 server0 (Some "nothing") None None None "GET" []).
  reflexivity.
Defined.

(** Two rules of the URL of [send_request]: an empty custom URL counts as
    none, and the issue key is only appended for PUT and GET, so a POST
    ignores it. *)
Theorem send_request_url_rules self server api key key' data method t :
  send_request self server api (Some "") key data method t =
  send_request self server api None key data method t /\
  (lower method = "post" ->
   send_request self server api None key data method t =
   send_request self server api None key' data method t).
Proof.
  split; [reflexivity |].
  intros Hm. unfold send_request. cbv zeta. rewrite Hm. reflexivity.
Qed.

Lemma send_request_url_rules_witness :
  lower "POST" = "post" /\
  send_request cfg0 server0 (Some "issue") None (Some (JStr "P-1")) None "POST" [] =
  send_request cfg0 server0 (Some "issue") None None None "POST" [].
Proof.
  split; [reflexivity |].
  apply (proj2 (send_request_url_rules cfg0 server0 (Some "issue") (Some (JStr "P-1")) None None "POST" [])).
  reflexivity.
Defined.

(** [link_jira_issues] sends exactly one request: a POST to
    [<api base>/issueLink] whose body names the link type, the first key as
    the inward issue and the second as the outward issue. *)
Theorem link_jira_issues_request self server issue_key parent_key link_type t :
  snd (link_jira_issues self server issue_key parent_key link_type t) =
  (t ++ [ERequest (mkRequest "post" (jira_api_base_url self ++ "/issueLink")
           (Some (JDict [("type", JDict [("name", link_type)]);
                         ("inwardIssue", JDict [("key", issue_key)]);
                         ("outwardIssue", JDict [("key", parent_key)])])))])%list.
Proof.
  unfold link_jira_issues. rewrite send_request_post_default.
  unfold bind, http. rewrite handle_response_fst. reflexivity.
Qed.

Lemma handle_response_ok resp t :
  ~ (400 <= resp_status resp < 600)%Z -> resp_text resp <> "" ->
  handle_response resp t =
  (Ok (RJson (match resp_json resp with
              | Some j => j
              | None => JDict [("response_text", JStr (resp_text resp))]
              end)), t).
Proof.
  intros Hr Ht. unfold handle_response.
  replace ((400 <=? _)%Z && (_ <? 600)%Z) with false.
  - apply String.eqb_neq in Ht. rewrite Ht. simpl. destruct (resp_json resp); reflexivity.
  - symmetry. apply andb_false_iff.
    destruct (Z.leb_spec 400 (resp_status resp)).
    + right. apply Z.ltb_ge. lia.
    + left. reflexivity.
Qed.

Lemma bind_step {A B} (m : M A) (k : A -> M B) t a t' :
  m t = (Ok a, t') -> bind m k t = k a t'.
Proof. intros E. unfold bind. rewrite E. reflexivity. Qed.

Lemma send_request_get_path self server api t :
  send_request self server (Some api) None None None "get" t =
  bind (http server (mkRequest "get" (jira_api_base_url self ++ "/" ++ api) None)) handle_response t.
Proof. reflexivity. Qed.

Lemma find_project_find key projects :
  Forall (fun p => exists s, dget p "key" = Some (JStr s)) projects ->
  find_project key (map JDict projects) =
  match find (fun p => match dget p "key" with Some (JStr s) => String.eqb s key | _ => false end)
             projects with
  | Some p => match dget p "id" with Some i => Ok i | None => Err (KeyError "id") end
  | None => Err (RuntimeError ("Project key " ++ key ++ " not found."))
  end.
Proof.
  induction 1 as [|p ps [s Hs] _ IH]; [reflexivity |].
  simpl. rewrite Hs. simpl. destruct (String.eqb s key); [reflexivity | exact IH].
Qed.

(** [get_project_id_by_key] sends one GET of [<api base>/project].  When
    the reply is a list of projects with string keys, the result is the id
    of the first project whose key is the one asked for ([KeyError] if that
    project has no id), and [RuntimeError] when no project has it. *)
Theorem get_project_id_first_match self server key t resp projects :
  server t (mkRequest "get" (jira_api_base_url self ++ "/" ++ "project") None) = resp ->
  ~ (400 <= resp_status resp < 600)%Z -> resp_text resp <> "" ->
  resp_json resp = Some (JList (map JDict projects)) ->
  Forall (fun p => exists s, dget p "key" = Some (JStr s)) projects ->
  get_project_id_by_key self server key t =
  (match find (fun p => match dget p "key" with Some (JStr s) => String.eqb s key | _ => false end)
              projects with
   | Some p => match dget p "id" with Some i => Ok i | None => Err (KeyError "id") end
   | None => Err (RuntimeError ("Project key " ++ key ++ " not found."))
   end,
   (t ++ [ERequest (mkRequest "get" (jira_api_base_url self ++ "/" ++ "project") None)])%list).
Proof.
  intros Hs Hr Ht Hj HF. unfold get_project_id_by_key.
  unfold bind at 1. rewrite send_request_get_path. unfold bind at 1, http.
  rewrite Hs, (handle_response_ok _ _ Hr Ht), Hj.
  unfold bind, lift. simpl. rewrite find_project_find by exact HF. reflexivity.
Qed.

Lemma get_project_id_first_match_witness :
  get_project_id_by_key cfg0 server0 "PROJ" [] =
  (Ok (JStr "10"),
   [ERequest (mkRequest "get" (jira_api_base_url cfg0 ++ "/" ++ "project") None)]).
Proof.
  rewrite (get_project_id_first_match cfg0 server0 "PROJ" []
             (server0 [] (mkRequest "get" (jira_api_base_url cfg0 ++ "/" ++ "project") None))
             [[("id", JStr "10"); ("key", JStr "PROJ")]]).
  - reflexivity.
  - reflexivity.
  - intros H. vm_compute in H. destruct H as [H1 _]. apply H1. reflexivity.
  - vm_compute. discriminate.
  - reflexivity.
  - repeat constructor. eexists. reflexivity.
Defined.

(** [get_board_id_by_project_key] asks for the boards of a project only
    once the project id is known: a failed project lookup is its result,
    with no further request.  Otherwise it sends one GET of the board search
    URL for that id; the result is the id of the first board listed under
    ['values'], and [RuntimeError] when the list is empty or absent. *)
Theorem get_board_id_first_board self server key t :
  (forall e t1, get_project_id_by_key self server key t = (Err e, t1) ->
     get_board_id_by_project_key self server key t = (Err e, t1)) /\
  (forall pid t1 resp body,
     get_project_id_by_key self server key t = (Ok pid, t1) ->
     server t1 (mkRequest "get" (jira_url self ++ "/rest/agile/1.0/board?projectKeyOrId=" ++ py_str pid) None) = resp ->
     ~ (400 <= resp_status resp < 600)%Z -> resp_text resp <> "" ->
     resp_json resp = Some (JDict body) ->
     snd (get_board_id_by_project_key self server key t) =
       (t1 ++ [ERequest (mkRequest "get" (jira_url self ++ "/rest/agile/1.0/board?projectKeyOrId=" ++ py_str pid) None)])%list /\
     (dget body "values" = None ->
        fst (get_board_id_by_project_key self server key t) =
        Err (RuntimeError ("No boards found for project key " ++ key ++ "."))) /\
     (forall boards, dget body "values" = Some (JList boards) ->
        fst (get_board_id_by_project_key self server key t) =
        match boards with
        | [] => Err (RuntimeError ("No boards found for project key " ++ key ++ "."))
        | board :: _ => subscript board "id"
        end)).
Proof.
  split.
  - intros e t1 He. unfold get_board_id_by_project_key, bind at 1. rewrite He. reflexivity.
  - intros pid t1 resp body Hp Hs Hr Ht Hj.
    assert (Hu : String.eqb (jira_url self ++ "/rest/agile/1.0/board?projectKeyOrId=" ++ py_str pid) "" = false)
      by (destruct (jira_url self); reflexivity).
    assert (H2 : send_request self server None
                   (Some (jira_url self ++ "/rest/agile/1.0/board?projectKeyOrId=" ++ py_str pid))
                   None None "get" t1 =
                 (Ok (RJson (JDict body)),
                  (t1 ++ [ERequest (mkRequest "get" (jira_url self ++ "/rest/agile/1.0/board?projectKeyOrId=" ++ py_str pid) None)])%list)).
    { rewrite send_request_custom by (reflexivity || exact Hu).
      change (lower "get") with "get". unfold bind, http. rewrite Hs, (handle_response_ok _ _ Hr Ht), Hj. reflexivity. }
    unfold get_board_id_by_project_key.
    rewrite (bind_step _ _ _ _ _ Hp). cbv zeta. rewrite (bind_step _ _ _ _ _ H2).
    unfold bind, lift. cbn [reply_get py_get].
    split; [| split].
    + destruct (dget body "values") as [v|]; [| reflexivity].
      destruct (py_iter v) as [[|b bs]|e]; reflexivity.
    + intros Hv. rewrite Hv. reflexivity.
    + intros boards Hv. rewrite Hv. destruct boards; reflexivity.
Qed.

Lemma get_board_id_first_board_witness :
  fst (get_board_id_by_project_key cfg0 server0 "PROJ" []) = Ok (JNum 7) /\
  snd (get_board_id_by_project_key cfg0 server0 "PROJ" []) =
    (snd (get_project_id_by_key cfg0 server0 "PROJ" []) ++
     [ERequest (mkRequest "get" (jira_url cfg0 ++ "/rest/agile/1.0/board?projectKeyOrId=" ++ py_str (JStr "10")) None)])%list.
Proof.
  destruct (proj2 (get_board_id_first_board cfg0 server0 "PROJ" [])
              (JStr "10") (snd (get_project_id_by_key cfg0 server0 "PROJ" []))
              (server0 (snd (get_project_id_by_key cfg0 server0 "PROJ" []))
                 (mkRequest "get" (jira_url cfg0 ++ "/rest/agile/1.0/board?projectKeyOrId=" ++ py_str (JStr "10")) None))
              [("values", JList [JDict [("id", JNum 7)]])])
    as [Etr [_ Eb]].
  - vm_compute. reflexivity.
  - reflexivity.
  - intros H. vm_compute in H. destruct H as [H1 _]. apply H1. reflexivity.
  - vm_compute. discriminate.
  - vm_compute. reflexivity.
  - split; [| exact Etr].
    rewrite (Eb [JDict [("id", JNum 7)]]); reflexivity.
Defined.

(** A sprint lookup on a board whose reply has no ['values'] entry finds
    nothing: [get_sprint_id] returns [None] after its one GET. *)
Theorem get_sprint_id_without_values self server board name t resp body :
  server t (mkRequest "get" (board_sprints_url self board) None) = resp ->
  ~ (400 <= resp_status resp < 600)%Z -> resp_text resp <> "" ->
  resp_json resp = Some (JDict body) ->
  dget body "values" = None ->
  get_sprint_id self server board name t =
  (Ok None, (t ++ [ERequest (mkRequest "get" (board_sprints_url self board) None)])%list).
Proof.
  intros Hs Hr Ht Hj Hv. unfold get_sprint_id.
  unfold bind at 1. rewrite send_request_custom by (reflexivity || apply board_sprints_url_nonempty).
  change (lower "get") with "get". unfold bind at 1, http. rewrite Hs, (handle_response_ok _ _ Hr Ht), Hj.
  unfold bind, lift. cbn [reply_get py_get]. rewrite Hv. reflexivity.
Qed.

Lemma get_sprint_id_without_values_witness :
  get_sprint_id cfg0 server_novalues (JNum 7) (JStr "Sprint 1") [] =
  (Ok None, [ERequest (mkRequest "get" (board_sprints_url cfg0 (JNum 7)) None)]).
Proof.
  apply (get_sprint_id_without_values cfg0 server_novalues (JNum 7) (JStr "Sprint 1") []
           (mkResponse 200 "{}" (Some (JDict []))) []).
  - reflexivity.
  - simpl. lia.
  - discriminate.
  - reflexivity.
  - reflexivity.
Defined.

(** *** [_build_issue_data] *)

Lemma nodup_dset {A} (m : list (string * A)) k v :
  NoDup (keys m) -> NoDup (keys (dset m k v)).
Proof.
  induction m as [|[k' v'] m IH]; intros H.
  - constructor; [intros [] | constructor].
  - cbn [dset]. inversion H as [|x l Hn Hd]; subst.
    destruct (String.eqb k' k) eqn:E.
    + exact H.
    + change (NoDup (k' :: keys (dset m k v))). constructor; [| exact (IH Hd)].
      rewrite keys_dset. intros [Hin | ->]; [exact (Hn Hin) |].
      rewrite String.eqb_refl in E. discriminate E.
Qed.

Lemma foldM_build_nodup self server p excl kvs : forall acc t m,
  NoDup (keys acc) ->
  fst (foldM (build_field self server p excl) acc kvs t) = Ok m ->
  NoDup (keys m).
Proof.
  induction kvs as [|[n v] kvs IH]; intros acc t m Hacc H.
  - simpl in H. injection H as <-. exact Hacc.
  - cbn [foldM] in H. unfold bind in H.
    destruct (build_field self server p excl acc (n, v) t) as [[a|e] t'] eqn:E;
      [| discriminate H].
    apply (IH a t'); [| exact H].
    assert (Ha := build_field_result self server p excl acc n v t a).
    rewrite E in Ha. specialize (Ha eq_refl).
    destruct (field_target self excl (n, v)).
    + destruct Ha as [w ->]. apply nodup_dset. exact Hacc.
    + subst a. exact Hacc.
Qed.

(** When several input fields of [_build_issue_data] map to the same Jira
    field [k], the fields dict holds [k] once, and its value is the one the
    step for the last such field wrote: the steps for the fields after it
    do not touch [k]. *)
Theorem build_issue_data_distinct_keys self server p pre n v post excl t m k :
  field_target self excl (n, v) = Some k ->
  Forall (fun g => field_target self excl g <> Some k) post ->
  fst (build_issue_data self server p (JDict (pre ++ (n, v) :: post)) excl t) = Ok m ->
  NoDup (keys m) /\
  exists acc t1 t2 w,
    foldM (build_field self server p excl) [] pre t = (Ok acc, t1) /\
    build_field self server p excl acc (n, v) t1 = (Ok (dset acc k w), t2) /\
    dget m k = Some w.
Proof.
  intros Hk Hpost Hb. unfold build_issue_data in Hb.
  split; [apply (foldM_build_nodup self server p excl (pre ++ (n, v) :: post) [] t m); [constructor | exact Hb]|].
  destruct (foldM_app_cons _ pre (n, v) post [] t m Hb)
    as (acc1 & t1 & acc2 & t2 & Hpre & Hstep & Hrest).
  assert (Hr := build_field_result self server p excl acc1 n v t1 acc2).
  rewrite Hstep, Hk in Hr. destruct (Hr eq_refl) as [w ->].
  exists acc1, t1, t2, w. split; [exact Hpre|]. split; [exact Hstep|].
  rewrite (foldM_build_preserves self server p excl k post _ t2 m Hpost Hrest).
  apply dget_dset_same.
Qed.

Lemma build_issue_data_distinct_keys_witness :
  fst (build_issue_data cfg0 server0 "PROJ"
         (JDict [("team", JStr "a"); ("customfield_20000", JStr "b")]) [] [])
    = Ok [("customfield_20000", JStr "b")] /\
  NoDup (keys [("customfield_20000", JStr "b")]) /\
  exists acc t1 t2 w,
    foldM (build_field cfg0 server0 "PROJ" []) [] [("team", JStr "a")] [] = (Ok acc, t1) /\
    build_field cfg0 server0 "PROJ" [] acc ("customfield_20000", JStr "b") t1
      = (Ok (dset acc "customfield_20000" w), t2) /\
    dget [("customfield_20000", JStr "b")] "customfield_20000" = Some w.
Proof.
  split; [vm_compute; reflexivity |].
  apply (build_issue_data_distinct_keys cfg0 server0 "PROJ" [("team", JStr "a")]
           "customfield_20000" (JStr "b") [] [] [] [("customfield_20000", JStr "b")]).
  - vm_compute. reflexivity.
  - constructor.
  - vm_compute. reflexivity.
Defined.

Lemma sends_nothing_ret {A} (a : A) : sends_nothing (ret a).
Proof. intros t. reflexivity. Qed.

Lemma sends_nothing_raise {A} e : sends_nothing (A := A) (raise e).
Proof. intros t. reflexivity. Qed.

Lemma sends_nothing_lift {A} (r : result A) : sends_nothing (lift r).
Proof. intros t. reflexivity. Qed.

Lemma sends_nothing_bind {A B} (m : M A) (k : A -> M B) :
  sends_nothing m -> (forall a, sends_nothing (k a)) -> sends_nothing (bind m k).
Proof.
  intros Hm Hk t. unfold bind. specialize (Hm t).
  destruct (m t) as [[a|e] t']; simpl in Hm; subst t'; [apply Hk | reflexivity].
Qed.

Lemma build_field_sends_nothing self server p excl acc n v :
  n <> "sprint" -> sends_nothing (build_field self server p excl acc (n, v)).
Proof.
  intros Hn. unfold build_field.
  repeat first
    [ apply sends_nothing_ret | apply sends_nothing_raise | apply sends_nothing_lift
    | apply sends_nothing_bind; [| intro ]
    | match goal with
      | |- sends_nothing (if String.eqb n "sprint" then _ else _) =>
          rewrite (proj2 (String.eqb_neq n "sprint") Hn)
      | |- sends_nothing (if ?b then _ else _) => destruct b
      | |- sends_nothing (match ?x with _ => _ end) => destruct x
      end ].
Qed.

Lemma foldM_sends_nothing {A B} (f : A -> B -> M A) acc l :
  (forall a x, In x l -> sends_nothing (f a x)) -> sends_nothing (foldM f acc l).
Proof.
  revert acc. induction l as [|x l IH]; intros acc Hf; simpl.
  - apply sends_nothing_ret.
  - apply sends_nothing_bind; [apply Hf; left; reflexivity |].
    intros a. apply IH. intros a' y Hy. apply Hf. right. exact Hy.
Qed.

(** [_build_issue_data] only ever reads from the tracker: every request it
    sends is a GET (the board and sprint lookups of a ['sprint'] field), and
    it sends nothing at all when the issue has no ['sprint'] field. *)
Theorem build_issue_data_requests self server p fields excl t :
  (exists g, snd (build_issue_data self server p fields excl t) = (t ++ g)%list /\
             Forall is_get g) /\
  (~ In "sprint" (dict_keys fields) ->
   snd (build_issue_data self server p fields excl t) = t).
Proof.
  split; [apply build_issue_data_gets |].
  intros Hs. unfold build_issue_data. destruct fields as [| | | | | kvs]; try reflexivity.
  apply foldM_sends_nothing. intros acc [n v] Hin.
  apply build_field_sends_nothing. intros ->. apply Hs.
  apply (in_map fst) in Hin. exact Hin.
Qed.

Lemma build_issue_data_requests_witness :
  snd (build_issue_data cfg0 server0 "PROJ"
         (JDict [("summary", JStr "S"); ("priority", JStr "High")]) [] []) = [] /\
  snd (build_issue_data cfg0 server0 "PROJ"
         (JDict [("summary", JStr "S"); ("sprint", JStr "Sprint 1")]) [] []) <> [].
Proof.
  split.
  - apply (proj2 (build_issue_data_requests cfg0 server0 "PROJ"
                    (JDict [("summary", JStr "S"); ("priority", JStr "High")]) [] [])).
    simpl. intuition discriminate.
  - vm_compute. discriminate.
Defined.

(** *** The creation request *)

(** How [create_new_jira_issue] attaches the new issue: a sub-task gets its
    ['parent'] when a parent key is given and never the epic link, whatever
    the epic key; any other issue ignores the parent key. *)
Theorem initial_fields_subtask_rules self p issue epic_key parent_key built :
  (is_subtask issue = true ->
   initial_fields self p issue epic_key parent_key built =
   Ok (if truthy_opt parent_key
       then dset (dset built "project" (JDict [("key", JStr p)])) "parent"
              (JDict [("key", opt_json parent_key)])
       else dset built "project" (JDict [("key", JStr p)]))) /\
  (is_subtask issue = false ->
   initial_fields self p issue epic_key parent_key built =
   initial_fields self p issue epic_key None built).
Proof.
  unfold initial_fields. split; intros H; rewrite H;
    destruct (truthy_opt epic_key), (truthy_opt parent_key); reflexivity.
Qed.

Lemma initial_fields_subtask_rules_witness :
  is_subtask (JDict [("summary", JStr "S"); ("issuetype", JStr "Sub-task")]) = true /\
  initial_fields cfg0 "PROJ" (JDict [("summary", JStr "S"); ("issuetype", JStr "Sub-task")])
    (Some (JStr "E-1")) (Some (JStr "P-1")) [] =
  Ok [("project", JDict [("key", JStr "PROJ")]); ("parent", JDict [("key", JStr "P-1")])].
Proof.
  split; [reflexivity |].
  rewrite (proj1 (initial_fields_subtask_rules cfg0 "PROJ"
                    (JDict [("summary", JStr "S"); ("issuetype", JStr "Sub-task")])
                    (Some (JStr "E-1")) (Some (JStr "P-1")) []) eq_refl).
  reflexivity.
Defined.

Lemma no_put_ret {A} (a : A) : no_put (ret a).
Proof. intros t. exists []. rewrite app_nil_r. split; [reflexivity | constructor]. Qed.

Lemma no_put_raise {A} e : no_put (A := A) (raise e).
Proof. intros t. exists []. rewrite app_nil_r. split; [reflexivity | constructor]. Qed.

Lemma no_put_lift {A} (r : result A) : no_put (lift r).
Proof. intros t. exists []. rewrite app_nil_r. split; [reflexivity | constructor]. Qed.

Lemma no_put_emit i : no_put (emit (ECreate i)).
Proof. intros t. exists [ECreate i]. split; [reflexivity | repeat constructor]. Qed.

Lemma no_put_bind {A B} (m : M A) (k : A -> M B) :
  no_put m -> (forall a, no_put (k a)) -> no_put (bind m k).
Proof.
  intros Hm Hk t. unfold bind.
  destruct (Hm t) as [e1 [E1 F1]].
  destruct (m t) as [[a|e] t']; simpl in E1; subst t'.
  - destruct (Hk a (t ++ e1)%list) as [e2 [E2 F2]].
    exists (e1 ++ e2)%list. rewrite E2, app_assoc. split; [reflexivity |].
    apply Forall_app. split; assumption.
  - exists e1. split; [reflexivity | exact F1].
Qed.

Lemma no_put_bind_det {A B} (m : M A) (k : A -> M B) a :
  (forall t, m t = (Ok a, t)) -> no_put (k a) -> no_put (bind m k).
Proof. intros Hm Hk t. unfold bind. rewrite Hm. apply Hk. Qed.

Lemma no_put_bind_err {A B} (m : M A) (k : A -> M B) e :
  (forall t, m t = (Err e, t)) -> no_put (bind m k).
Proof. intros Hm t. unfold bind. rewrite Hm. apply no_put_raise. Qed.

Lemma no_put_gets {A} (m : M A) : gets_only m -> no_put m.
Proof.
  intros Hm t. destruct (Hm t) as [g [E G]]. exists g. split; [exact E |].
  eapply Forall_impl; [| exact G].
  intros [r|i] H; simpl in *; [rewrite H; discriminate | exact I].
Qed.

Lemma no_put_send_post self server api custom key data :
  no_put (send_request self server api custom key data "post").
Proof.
  destruct (send_request_shape self server api custom key data "post" eq_refl) as [url Hs].
  intros t. rewrite Hs. unfold bind at 1, http.
  exists [ERequest (mkRequest "post" url data)].
  rewrite handle_response_fst. split; [reflexivity |].
  repeat constructor. simpl. discriminate.
Qed.

Lemma foldM_build_excluded self server p excl kvs : forall acc t,
  (forall g, In g kvs -> mem (fst g) excl = true) ->
  foldM (build_field self server p excl) acc kvs t = (Ok acc, t).
Proof.
  induction kvs as [|[n v] kvs IH]; intros acc t H; [reflexivity |].
  cbn [foldM]. unfold bind.
  assert (Hn : mem n excl = true) by exact (H (n, v) (or_introl eq_refl)).
  assert (E : build_field self server p excl acc (n, v) t = (Ok acc, t)).
  { unfold build_field. destruct (String.eqb n "issues"); [reflexivity |].
    rewrite Hn. reflexivity. }
  rewrite E. apply IH. intros g Hg. apply H. right. exact Hg.
Qed.

Ltac no_put_solve :=
  repeat first
    [ apply no_put_ret | apply no_put_raise | apply no_put_lift | apply no_put_emit
    | apply no_put_send_post
    | apply no_put_gets, build_issue_data_gets
    | progress cbv zeta
    | progress cbv beta iota
    | progress unfold link_jira_issues
    | apply no_put_bind; [| intro ]
    | match goal with
      | |- no_put (if ?b then _ else _) => destruct b
      | |- no_put (match ?x with _ => _ end) => destruct x
      end ].

(** Without post-creation update fields in the configuration,
    [create_new_jira_issue] never sends an update (PUT) request: every
    field goes into the creation request. *)
Theorem create_new_no_put_without_post_fields self server p issue epic_key parent_key t :
  post_creation_update_fields self = [] ->
  exists evs,
    snd (create_new_jira_issue self server p issue epic_key parent_key t) = (t ++ evs)%list /\
    Forall (fun ev => match ev with
                      | ERequest r => req_method r <> "put"
                      | ECreate _ => True
                      end) evs.
Proof.
  intros Hpost. revert t. change (no_put (create_new_jira_issue self server p issue epic_key parent_key)).
  unfold create_new_jira_issue.
  apply no_put_bind; [apply no_put_emit | intros _].
  apply no_put_bind; [apply no_put_gets, build_issue_data_gets | intros built].
  apply no_put_bind; [apply no_put_lift | intros initial].
  apply no_put_bind; [apply no_put_send_post | intros response_data].
  apply no_put_bind; [apply no_put_lift | intros issue_key].
  destruct (negb (truthy issue_key)); [apply no_put_raise |]. cbv zeta.
  destruct issue as [| | | | | kvs];
    try (apply (no_put_bind_err _ _ (AttributeError "items")); intros t; reflexivity).
  apply (no_put_bind_det _ _ []).
  - intros t. unfold build_issue_data. apply foldM_build_excluded.
    intros g Hg. unfold dict_keys. rewrite (mem_creation_fields _ _ _ Hg), Hpost. reflexivity.
  - cbv beta iota. no_put_solve.
Qed.

Lemma create_new_no_put_without_post_fields_witness :
  post_creation_update_fields cfg_nopost = [] /\
  exists evs,
    snd (create_new_jira_issue cfg_nopost server0 "PROJ"
           (JDict [("summary", JStr "S"); ("issuetype", JStr "Task"); ("labels", JList [JStr "a"])])
           None None []) = ([] ++ evs)%list /\
    Forall (fun ev => match ev with
                      | ERequest r => req_method r <> "put"
                      | ECreate _ => True
                      end) evs.
Proof.
  split; [reflexivity |].
  apply (create_new_no_put_without_post_fields cfg_nopost server0 "PROJ"
           (JDict [("summary", JStr "S"); ("issuetype", JStr "Task"); ("labels", JList [JStr "a"])])
           None None []).
  reflexivity.
Defined.

(** *** The tree walk *)

Lemma create_list_missing_head self server p kvs rest epic_key parent_key t :
  dget kvs "issuetype" = None \/ dget kvs "summary" = None ->
  create_list_of_jira_issues self server p (JList (JDict kvs :: rest)) epic_key parent_key t =
  (Err (KeyError (if dhas kvs "issuetype" then "summary" else "issuetype")), t).
Proof.
  intros H. rewrite create_list_cons.
  unfold create_list_item, dhas, bind at 1 2, lift at 1, subscript at 1.
  destruct (dget kvs "issuetype") as [ty|] eqn:Ei; [| reflexivity].
  destruct H as [H | H]; [discriminate H |].
  unfold bind at 1, lift at 1, subscript at 1. rewrite H. reflexivity.
Qed.

Lemma bind_assoc_pt {A B C} (m : M A) (k : A -> M B) (h : B -> M C) t :
  bind (bind m k) h t = bind m (fun a => bind (k a) h) t.
Proof. unfold bind. destruct (m t) as [[a|e] t']; reflexivity. Qed.

Lemma create_epics_app self server p l1 l2 t :
  create_epics_and_issues self server p (l1 ++ l2) t =
  bind (create_epics_and_issues self server p l1) (fun _ => create_epics_and_issues self server p l2) t.
Proof.
  revert t. induction l1 as [|e l1 IH]; intros t; [reflexivity |].
  cbn [app create_epics_and_issues].
  rewrite bind_assoc_pt. apply bind_ext. intros _ t1.
  rewrite bind_assoc_pt. apply bind_ext. intros resp t2.
  rewrite bind_assoc_pt. apply bind_ext. intros key t3.
  rewrite bind_assoc_pt. apply bind_ext. intros _ t4.
  apply IH.
Qed.

Lemma bind_ext_l {A B} (m m' : M A) (k : A -> M B) :
  (forall t, m t = m' t) -> forall t, bind m k t = bind m' k t.
Proof. intros E t. unfold bind. rewrite E. reflexivity. Qed.

Lemma create_list_app self server p l1 l2 ek pk t :
  create_list_of_jira_issues self server p (JList (l1 ++ l2)) ek pk t =
  bind (create_list_of_jira_issues self server p (JList l1) ek pk)
       (fun _ => create_list_of_jira_issues self server p (JList l2) ek pk) t.
Proof.
  revert t. induction l1 as [|it l1 IH]; intros t; [reflexivity |].
  cbn [app]. rewrite create_list_cons.
  rewrite (bind_ext_l _ _ _ (create_list_cons self server p it l1 ek pk)).
  rewrite bind_assoc_pt. apply bind_ext. intros key t1.
  rewrite bind_assoc_pt. apply bind_ext. intros _ t2.
  apply IH.
Qed.

(** [create_list_of_jira_issues] stops at the first issue of the list
    without ['issuetype'] or ['summary']: the issues before it (and their
    nested issues) are created, and [KeyError] (on ['issuetype'] first) is
    raised before anything is sent for that issue or the ones after it. *)
Theorem create_list_missing_log_fields self server p done kvs rest epic_key parent_key t t1 :
  create_list_of_jira_issues self server p (JList done) epic_key parent_key t = (Ok tt, t1) ->
  dget kvs "issuetype" = None \/ dget kvs "summary" = None ->
  create_list_of_jira_issues self server p (JList (done ++ JDict kvs :: rest)) epic_key parent_key t =
  (Err (KeyError (if dhas kvs "issuetype" then "summary" else "issuetype")), t1).
Proof.
  intros Hd H. rewrite create_list_app. unfold bind at 1. rewrite Hd.
  apply create_list_missing_head. exact H.
Qed.

Lemma create_list_missing_log_fields_witness :
  create_list_of_jira_issues cfg0 server0 "PROJ"
    (JList [JDict [("summary", JStr "A"); ("issuetype", JStr "Task")]]) None None []
    = (Ok tt, snd (create_list_of_jira_issues cfg0 server0 "PROJ"
                     (JList [JDict [("summary", JStr "A"); ("issuetype", JStr "Task")]]) None None [])) /\
  create_list_of_jira_issues cfg0 server0 "PROJ"
    (JList ([JDict [("summary", JStr "A"); ("issuetype", JStr "Task")]] ++
            [JDict [("issuetype", JStr "Task")]; JDict [("summary", JStr "T"); ("issuetype", JStr "Task")]]))
    None None [] =
  (Err (KeyError "summary"),
   snd (create_list_of_jira_issues cfg0 server0 "PROJ"
          (JList [JDict [("summary", JStr "A"); ("issuetype", JStr "Task")]]) None None [])).
Proof.
  assert (Hd : create_list_of_jira_issues cfg0 server0 "PROJ"
    (JList [JDict [("summary", JStr "A"); ("issuetype", JStr "Task")]]) None None []
    = (Ok tt, snd (create_list_of_jira_issues cfg0 server0 "PROJ"
                     (JList [JDict [("summary", JStr "A"); ("issuetype", JStr "Task")]]) None None [])))
    by (vm_compute; reflexivity).
  split; [exact Hd|].
  apply (create_list_missing_log_fields cfg0 server0 "PROJ"
           [JDict [("summary", JStr "A"); ("issuetype", JStr "Task")]] [("issuetype", JStr "Task")]
           [JDict [("summary", JStr "T"); ("issuetype", JStr "Task")]] None None []).
  - exact Hd.
  - right. reflexivity.
Defined.

(** [create_epics_and_issues] stops at the first epic without an
    ['epicName']: the epics before it are created, and [KeyError] is raised
    before anything is sent for that epic or the ones after it. *)
Theorem create_epics_stops_at_unnamed_epic self server p done kvs rest t t1 :
  create_epics_and_issues self server p done t = (Ok tt, t1) ->
  dget kvs "epicName" = None ->
  create_epics_and_issues self server p (done ++ JDict kvs :: rest) t =
  (Err (KeyError "epicName"), t1).
Proof.
  intros Hd Hn. rewrite create_epics_app. unfold bind at 1. rewrite Hd.
  cbn [create_epics_and_issues]. unfold bind at 1, lift at 1, subscript. rewrite Hn.
  reflexivity.
Qed.

Lemma create_epics_stops_at_unnamed_epic_witness :
  create_epics_and_issues cfg0 server0 "PROJ"
    ([epic_e1] ++ [JDict [("summary", JStr "E2"); ("issuetype", JStr "Epic")]; epic_e1]) [] =
  (Err (KeyError "epicName"), snd (create_epics_and_issues cfg0 server0 "PROJ" [epic_e1] [])).
Proof.
  apply (create_epics_stops_at_unnamed_epic cfg0 server0 "PROJ" [epic_e1]
           [("summary", JStr "E2"); ("issuetype", JStr "Epic")] [epic_e1] []).
  - vm_compute. reflexivity.
  - reflexivity.
Defined.

(** Once an issue of the walk is created, [create_list_of_jira_issues]
    links it to its parent issue with one more request, a POST to
    [<api base>/issueLink] naming the new issue as inward and the parent as
    outward issue, with the issue's ['linkType'] (default ['Related']); it
    does so iff a parent key is given and the issue type is not
    ['Sub-task'], and sends nothing else before the issue's children. *)
Theorem create_list_item_parent_link self server p kvs epic_key parent_key t resp t1 key ty :
  dget kvs "issuetype" = Some ty -> dhas kvs "summary" = true ->
  create_new_jira_issue self server p (JDict kvs) epic_key parent_key t = (Ok resp, t1) ->
  reply_subscript resp "key" = Ok key ->
  snd (create_list_item self server p (JDict kvs) epic_key parent_key t) =
  (t1 ++ if truthy_opt parent_key && negb (json_eqb ty (JStr "Sub-task"))
         then [ERequest (mkRequest "post" (jira_api_base_url self ++ "/issueLink")
                 (Some (link_data key (opt_json parent_key)
                          (match dget kvs "linkType" with Some l => l | None => JStr "Related" end))))]
         else [])%list.
Proof.
  intros Hty Hs Hc Hk. unfold dhas in Hs.
  destruct (dget kvs "summary") as [sv|] eqn:Es; [| discriminate Hs].
  assert (E1 : forall t', lift (subscript (JDict kvs) "issuetype") t' = (Ok ty, t'))
    by (intros t'; unfold lift, subscript; rewrite Hty; reflexivity).
  assert (E2 : lift (subscript (JDict kvs) "summary") t = (Ok sv, t))
    by (unfold lift, subscript; rewrite Es; reflexivity).
  assert (E3 : lift (reply_subscript resp "key") t1 = (Ok key, t1))
    by (unfold lift; rewrite Hk; reflexivity).
  unfold create_list_item.
  rewrite (bind_step _ _ _ _ _ (E1 t)), (bind_step _ _ _ _ _ E2),
          (bind_step _ _ _ _ _ Hc), (bind_step _ _ _ _ _ E3).
  destruct (truthy_opt parent_key); simpl andb.
  - rewrite bind_assoc_pt, (bind_step _ _ _ _ _ (E1 t1)).
    destruct (negb (json_eqb ty (JStr "Sub-task"))).
    + rewrite bind_assoc_pt.
      assert (E4 : lift (py_get (JDict kvs) "linkType" (JStr "Related")) t1 =
                   (Ok (match dget kvs "linkType" with Some l => l | None => JStr "Related" end), t1))
        by (unfold lift, py_get; destruct (dget kvs "linkType"); reflexivity).
      rewrite (bind_step _ _ _ _ _ E4).
      unfold link_jira_issues. rewrite bind_assoc_pt.
      unfold bind at 1. rewrite send_request_post_default.
      unfold bind, http. rewrite handle_response_fst.
      destruct (fst (handle_response _ [])); reflexivity.
    + unfold bind, ret. simpl. rewrite app_nil_r. reflexivity.
  - unfold bind, ret. simpl. rewrite app_nil_r. reflexivity.
Qed.

Lemma create_list_item_parent_link_witness :
  snd (create_list_item cfg0 server0 "PROJ" (JDict [("summary", JStr "T"); ("issuetype", JStr "Task")])
         None (Some (JStr "P-0")) []) =
  (snd (create_new_jira_issue cfg0 server0 "PROJ" (JDict [("summary", JStr "T"); ("issuetype", JStr "Task")])
          None (Some (JStr "P-0")) []) ++
   [ERequest (mkRequest "post" (jira_api_base_url cfg0 ++ "/issueLink")
      (Some (link_data (JStr "P-1") (JStr "P-0") (JStr "Related"))))])%list.
Proof.
  rewrite (create_list_item_parent_link cfg0 server0 "PROJ"
             [("summary", JStr "T"); ("issuetype", JStr "Task")] None (Some (JStr "P-0")) []
             (RJson (JDict [("id", JStr "1000"); ("key", JStr "P-1")]))
             (snd (create_new_jira_issue cfg0 server0 "PROJ"
                     (JDict [("summary", JStr "T"); ("issuetype", JStr "Task")]) None (Some (JStr "P-0")) []))
             (JStr "P-1") (JStr "Task")).
  - reflexivity.
  - reflexivity.
  - reflexivity.
  - vm_compute. reflexivity.
  - reflexivity.
Defined.
